(** * The RAOP simple player (examples/simple_player.py)

    A shallow embedding of the player script: the key handler of the
    interactive mode, the start-up sequence and the streaming loop.  Python
    integers are unbounded, hence [Z].  The script talks to three things it
    does not define: the conversion macros and constants of [libraop], the
    [RaopClient] object and the clock [get_ntp].  The first two are
    interfaces (type classes) here, the clock is a sequence of readings held
    in the environment.  Every call on the client, every printed line and
    every file written is appended to a trace, so that statements such as
    "pause, then flush" are statements about that trace. *)

From Stdlib Require Import ZArith List String Ascii Bool Lia.
From Stdlib Require Import DecimalString DecimalPos DecimalZ.
Import ListNotations.
Local Open Scope Z_scope.

(** ** Python values *)

(** Truth value of an integer: [if n:]. *)
Definition truthy (n : Z) : bool := negb (n =? 0).

(** [a or b] on integers. *)
Definition por (a b : Z) : Z := if truthy a then a else b.

(** Truth value of an optional string argument of argparse, [if name:]:
    [None] and the empty string are false.  The result is the name to use
    when the test succeeds. *)
Definition given (o : option string) : option string :=
  match o with
  | Some s => if String.eqb s EmptyString then None else Some s
  | None => None
  end.

(** [str(n)] for an integer. *)
Definition str (n : Z) : string := NilZero.string_of_int (Z.to_int n).

(** Truth value of a bytes object: [if data:]. *)
Definition nonempty (data : list Byte.byte) : bool :=
  match data with
  | [] => false
  | _ :: _ => true
  end.

(** [f.read(n)] on the rest of a file opened for reading: at most [n]
    bytes, everything when [n] is negative.  Returns the bytes read and what
    is left. *)
Definition file_read (n : Z) (rest : list Byte.byte) : list Byte.byte * list Byte.byte :=
  if n <? 0 then (rest, [])
  else (firstn (Z.to_nat n) rest, skipn (Z.to_nat n) rest).

(** ** The playback state (lines 32-34) *)

Inductive Status := PLAYING | STOPPED | PAUSED.

Definition Status_eqb (a b : Status) : bool :=
  match a, b with
  | PLAYING, PLAYING | STOPPED, STOPPED | PAUSED, PAUSED => true
  | _, _ => false
  end.

(** ** What libraop provides *)

(** The conversion macros and the chunk size are imported from [libraop],
    which is not part of the script: they are parameters of the model. *)
Class LibRaop := {
  MAX_SAMPLES_PER_CHUNK : Z;
  MS2TS : Z -> Z -> Z;
  TS2MS : Z -> Z -> Z;
  MS2NTP : Z -> Z;
  NTP2MS : Z -> Z;
  TS2NTP : Z -> Z -> Z
}.

(** [SECNTP(ntp)] is only ever interpolated into a printed line; it is kept
    as a constructor applied to the raw clock value. *)
Inductive Stamp := SECNTP (ntp : Z).

Definition stamp_ntp (t : Stamp) : Z := let 'SECNTP n := t in n.

(** Likewise [RaopClient.float_volume(percent)], only passed on to the
    constructor of the client. *)
Inductive Volume := float_volume (percent : Z).

Inductive Codec := RAOP_PCM | RAOP_ALAC.
Inductive Crypto := RAOP_CLEAR | RAOP_RSA.

(** The eighteen positional arguments of [RaopClient(...)] (lines 117-119). *)
Record ClientArgs := mkClientArgs {
  ca_host : string;
  ca_port_base : Z;
  ca_port_range : Z;
  ca_dacp_id : option string;
  ca_active_remote : option string;
  ca_codec : Codec;
  ca_chunk_len : Z;
  ca_latency : Z;
  ca_crypto : Crypto;
  ca_auth : bool;
  ca_passwd : option string;
  ca_secret : option string;
  ca_et : option string;
  ca_md : option string;
  ca_sample_rate : Z;
  ca_sample_size : Z;
  ca_channels : Z;
  ca_volume : Volume
}.

(** The methods and readable fields of the client the script uses.  A
    method may change the client; a field is read without changing it. *)
Module RaopClient.
Class Ops (C : Type) := {
  create : ClientArgs -> C;
  connect : Z -> bool -> C -> bool * C;
  disconnect : C -> C;
  destroy : C -> C;
  start_at : Z -> C -> C;
  pause : C -> C;
  stop : C -> C;
  flush : C -> C;
  keepalive : C -> C;
  accept_frames : C -> bool * C;
  send_chunk : list Byte.byte -> C -> (Z * Z) * C;
  is_playing : C -> bool;
  latency : C -> Z;
  sample_rate : C -> Z
}.
End RaopClient.

(** ** Observable events *)

Inductive Call :=
| c_create (a : ClientArgs)
| c_connect (port : Z) (flag : bool)
| c_disconnect
| c_destroy
| c_start_at (ntp : Z)
| c_pause
| c_stop
| c_flush
| c_keepalive
| c_accept_frames
| c_send_chunk (data : list Byte.byte).

(** The lines the script prints, one constructor per f-string, holding the
    interpolated values. *)
Inductive Line :=
| StoppedAt (t : Stamp)
| PauseAt (t : Stamp)
| RestartedAt (t : Stamp)
| CanNotConnect (ip : string)
| ConnectedTo (ip : string) (port : Z) (latency_ms : Z)
| NowAudioStartsAt (now : Stamp) (start_at : Stamp) (in_time : Z)
| At (t : Stamp) (after_start : Z) (played : Z)
| KeepAliveAt (t : Stamp) (after_start : Z) (played : Z).

Inductive Event :=
| ev_set_log_level (level : Z)
| ev_call (c : Call)
| ev_print (l : Line)
| ev_write (name : string) (content : string)
| ev_close_infile.

(** ** The environment: clock, trace and files *)

Record Env := mkEnv {
  clock : nat -> Z;            (* the successive values of get_ntp() *)
  reads : nat;                 (* how many have been read *)
  trace : list Event;
  files : string -> option (list Byte.byte);
  writable : string -> bool    (* whether open(name, "w") succeeds *)
}.

(** ** Computations that may exit or raise *)

Inductive Exn := OSError | ValueError.

Inductive Outcome (A : Type) :=
| Return (a : A)
| SystemExit (code : option Z)      (* exit(), exit(n) *)
| Raised (e : Exn).

Arguments Return {A} a.
Arguments SystemExit {A} code.
Arguments Raised {A} e.

(** The status a process ends with. *)
Definition exit_status {A} (o : Outcome A) : Z :=
  match o with
  | Return _ => 0
  | SystemExit None => 0
  | SystemExit (Some n) => n
  | Raised _ => 1
  end.

Definition Proc (S A : Type) : Type := S -> Outcome A * S.

Definition ret {S A} (a : A) : Proc S A := fun s => (Return a, s).

Definition bind {S A B} (m : Proc S A) (k : A -> Proc S B) : Proc S B :=
  fun s =>
    match m s with
    | (Return a, s') => k a s'
    | (SystemExit c, s') => (SystemExit c, s')
    | (Raised e, s') => (Raised e, s')
    end.

Definition get {S} : Proc S S := fun s => (Return s, s).

Definition py_exit {S A} (code : option Z) : Proc S A :=
  fun s => (SystemExit code, s).

Definition raise {S A} (e : Exn) : Proc S A := fun s => (Raised e, s).

Definition when {S} (b : bool) (m : Proc S unit) : Proc S unit :=
  if b then m else ret tt.

(** The state a computation leaves behind. *)
Definition exec {S A} (m : Proc S A) (s : S) : S := snd (m s).

Declare Scope proc_scope.
Delimit Scope proc_scope with proc.
Notation "x <- m ;; k" := (bind m (fun x => k))
  (at level 61, m at next level, right associativity) : proc_scope.
Notation "m ;; k" := (bind m (fun _ => k))
  (at level 61, right associativity) : proc_scope.
Local Open Scope proc_scope.

(** *** Primitives on the environment *)

Definition get_ntp : Proc Env Z :=
  fun e => (Return (clock e (reads e)),
            mkEnv (clock e) (S (reads e)) (trace e) (files e) (writable e)).

Definition emit (ev : Event) : Proc Env unit :=
  fun e => (Return tt,
            mkEnv (clock e) (reads e) (trace e ++ [ev]) (files e) (writable e)).

Definition print (l : Line) : Proc Env unit := emit (ev_print l).

(** [open(name, "w")]: the file is created, or emptied when it is there;
    OSError when the path cannot be opened for writing, and then nothing
    is touched. *)
Definition open_write (name : string) : Proc Env unit :=
  fun e =>
    if writable e name then
      (Return tt,
       mkEnv (clock e) (reads e) (trace e)
         (fun n => if String.eqb n name then Some [] else files e n)
         (writable e))
    else (Raised OSError, e).

(** [f.write(content)] on the file just opened for writing, and the end of
    the [with] block. *)
Definition write_file (name content : string) : Proc Env unit :=
  fun e =>
    (Return tt,
     mkEnv (clock e) (reads e) (trace e ++ [ev_write name content])
       (fun n => if String.eqb n name then Some (list_byte_of_string content)
                 else files e n)
       (writable e)).

(** [open(name, mode)] for reading, then the whole content. *)
Definition open_read (name : string) : Proc Env (list Byte.byte) :=
  fun e =>
    match files e name with
    | Some content => (Return content, e)
    | None => (Raised OSError, e)
    end.

(** The environment after further events. *)
Definition logged (evs : list Event) (e : Env) : Env :=
  mkEnv (clock e) (reads e) (trace e ++ evs) (files e) (writable e).

(** ** What a trace shows *)

(** The values a partial reading of events picks, in order. *)
Definition pick {A} (f : Event -> option A) (tr : list Event) : list A :=
  flat_map (fun e => match f e with Some a => [a] | None => [] end) tr.

(** The chunks handed to [send_chunk]. *)
Definition sent_chunks : list Event -> list (list Byte.byte) :=
  pick (fun e => match e with ev_call (c_send_chunk d) => Some d | _ => None end).

Definition zsum (l : list Z) : Z := fold_right Z.add 0 l.

Definition bytes_sent (tr : list Event) : Z :=
  zsum (map (fun d => Z.of_nat (List.length d)) (sent_chunks tr)).

(** The clock values of the status lines ("At ..."). *)
Definition status_stamps : list Event -> list Z :=
  pick (fun e => match e with ev_print (At t _ _) => Some (stamp_ntp t) | _ => None end).

(** The clock values of the keepalive lines ("Keep alive: At ..."). *)
Definition keepalive_stamps : list Event -> list Z :=
  pick (fun e =>
    match e with ev_print (KeepAliveAt t _ _) => Some (stamp_ntp t) | _ => None end).

(** The calls of [keepalive]. *)
Definition keepalive_calls : list Event -> list unit :=
  pick (fun e => match e with ev_call c_keepalive => Some tt | _ => None end).

(** Every later value of a list exceeds every earlier one by more than
    [gap]. *)
Fixpoint spaced (gap : Z) (l : list Z) : Prop :=
  match l with
  | [] => True
  | t :: rest => Forall (fun u => gap < u - t) rest /\ spaced gap rest
  end.

(** Each value of a list and the next satisfy [R]. *)
Fixpoint chained (R : Z -> Z -> Prop) (l : list Z) : Prop :=
  match l with
  | [] => True
  | t :: rest =>
      match rest with
      | [] => True
      | u :: _ => R t u
      end /\ chained R rest
  end.

(** The events the key handler can add: its four calls on the client and
    its three lines. *)
Definition key_event (e : Event) : Prop :=
  match e with
  | ev_call (c_stop | c_flush | c_pause | c_start_at _) => True
  | ev_print (StoppedAt _ | PauseAt _ | RestartedAt _) => True
  | _ => False
  end.

(** The events the body of the loop can add: its three calls on the client
    and its two lines. *)
Definition loop_event (e : Event) : Prop :=
  match e with
  | ev_call (c_accept_frames | c_send_chunk _ | c_keepalive) => True
  | ev_print (At _ _ _ | KeepAliveAt _ _ _) => True
  | _ => False
  end.

(** The calls of [accept_frames]. *)
Definition accept_polls : list Event -> list unit :=
  pick (fun e => match e with ev_call c_accept_frames => Some tt | _ => None end).

(** A key that ends the listener. *)
Definition stop_key_b (key : string) : bool :=
  String.eqb key "s" || String.eqb key "q".

(** ** The command line (lines 37-57) *)

Module args.
Record t := mk {
  server_ip : string;
  filename : string;
  ntp_file : option string;
  port : Z;
  volume : Z;
  latency : option Z;
  alac : bool;
  wait : Z;
  start : Z;
  start_file : option string;
  encrypt : bool;
  password : option string;
  secret : option string;
  debug : Z;
  interactive : bool
}.
End args.

(** ** The player *)

Section Player.

Context {L : LibRaop}.
Variable C : Type.
Context {RC : RaopClient.Ops C}.

(** [int(text)] of Python, [None] when it raises ValueError. *)
Variable py_int : string -> option Z.

(** The client object together with the environment it lives in. *)
Record Conn := mkConn {
  client : C;
  env : Env
}.

(** The module-level variables of the script once streaming begins
    (lines 139, 151-153, 128). *)
Record State := mkState {
  conn : Conn;
  status : Status;
  latency : Z;
  start : Z;
  last : Z;
  frames : Z;
  last_keepalive : Z;
  infile : list Byte.byte
}.

Definition on_env {A} (m : Proc Env A) : Proc Conn A :=
  fun k => let (r, e) := m (env k) in (r, mkConn (client k) e).

Definition on_conn {A} (m : Proc Conn A) : Proc State A :=
  fun s =>
    let (r, k) := m (conn s) in
    (r, mkState k (status s) (latency s) (start s) (last s) (frames s)
          (last_keepalive s) (infile s)).

(** A method call on the client: performed and recorded. *)
Definition call {A} (c : Call) (f : C -> A * C) : Proc Conn A :=
  fun k =>
    let (a, c') := f (client k) in
    let (_, e) := emit (ev_call c) (env k) in
    (Return a, mkConn c' e).

Definition call_ (c : Call) (f : C -> C) : Proc Conn unit :=
  call c (fun x => (tt, f x)).

(** Assignments to the module-level variables. *)
Definition set_status (v : Status) : Proc State unit :=
  fun s => (Return tt, mkState (conn s) v (latency s) (start s) (last s)
                         (frames s) (last_keepalive s) (infile s)).

Definition set_last (v : Z) : Proc State unit :=
  fun s => (Return tt, mkState (conn s) (status s) (latency s) (start s) v
                         (frames s) (last_keepalive s) (infile s)).

Definition set_frames (v : Z) : Proc State unit :=
  fun s => (Return tt, mkState (conn s) (status s) (latency s) (start s)
                         (last s) v (last_keepalive s) (infile s)).

Definition set_last_keepalive (v : Z) : Proc State unit :=
  fun s => (Return tt, mkState (conn s) (status s) (latency s) (start s)
                         (last s) (frames s) v (infile s)).

(** [infile.read(n)]. *)
Definition infile_read (n : Z) : Proc State (list Byte.byte) :=
  fun s =>
    let (data, rest) := file_read n (infile s) in
    (Return data, mkState (conn s) (status s) (latency s) (start s) (last s)
                    (frames s) (last_keepalive s) rest).

Definition the_client (s : State) : C := client (conn s).
Definition the_trace (s : State) : list Event := trace (env (conn s)).
Definition the_reads (s : State) : nat := reads (env (conn s)).

(** The value the next [get_ntp()] returns. *)
Definition next_ntp (s : State) : Z := clock (env (conn s)) (the_reads s).

(** The variables only the loop writes. *)
Definition same_cursor (s s' : State) : Prop :=
  latency s' = latency s /\ start s' = start s /\ last s' = last s
  /\ frames s' = frames s /\ last_keepalive s' = last_keepalive s
  /\ infile s' = infile s.

(** Nothing the loop itself writes to the trace was added. *)
Definition same_loop_events (s s' : State) : Prop :=
  sent_chunks (the_trace s') = sent_chunks (the_trace s)
  /\ status_stamps (the_trace s') = status_stamps (the_trace s)
  /\ keepalive_stamps (the_trace s') = keepalive_stamps (the_trace s)
  /\ keepalive_calls (the_trace s') = keepalive_calls (the_trace s).

(** *** handle_key_event (lines 74-99) *)

Definition handle_key_event (key : string) : Proc State unit :=
  s <- get ;;
  if String.eqb key "s" || String.eqb key "q" then
    on_conn (call_ c_stop RaopClient.stop) ;;
    on_conn (call_ c_flush RaopClient.flush) ;;
    set_status STOPPED ;;
    t <- on_conn (on_env get_ntp) ;;
    on_conn (on_env (print (StoppedAt (SECNTP t)))) ;;
    py_exit (Some 0)
  else if String.eqb key "p" && Status_eqb (status s) PLAYING then
    on_conn (call_ c_pause RaopClient.pause) ;;
    on_conn (call_ c_flush RaopClient.flush) ;;
    set_status PAUSED ;;
    t <- on_conn (on_env get_ntp) ;;
    on_conn (on_env (print (PauseAt (SECNTP t))))
  else if String.eqb key "r" then
    now <- on_conn (on_env get_ntp) ;;
    c <- get ;;
    let start_at :=
      now + MS2NTP 200
      - TS2NTP (RaopClient.latency (the_client c))
               (RaopClient.sample_rate (the_client c)) in
    set_status PLAYING ;;
    on_conn (call_ (c_start_at start_at) (RaopClient.start_at start_at)) ;;
    t <- on_conn (on_env get_ntp) ;;
    on_conn (on_env (print (RestartedAt (SECNTP t))))
  else ret tt.

(** *** The listener thread (lines 60-71)

    [listen] hands each key to the callback, one after the other; an
    exception raised by the callback leaves the [while True] and ends the
    thread.  [keys] are the keys pressed during some span of time.  The
    result tells whether the thread is still running. *)
Fixpoint listen (keys : list string) (s : State) : bool * State :=
  match keys with
  | [] => (true, s)
  | key :: rest =>
      match handle_key_event key s with
      | (Return _, s') => listen rest s'
      | (_, s') => (false, s')
      end
  end.

(** *** One round of the streaming loop (lines 162-183) *)

(** Lines 165-169. *)
Definition status_report (now : Z) : Proc State unit :=
  s <- get ;;
  when (MS2NTP 1000 <? now - last s) (
    set_last now ;;
    when (truthy (frames s) && (latency s <? frames s)) (
      on_conn (on_env (print
        (At (SECNTP now) (NTP2MS (now - start s))
            (TS2MS (frames s - latency s)
                   (RaopClient.sample_rate (the_client s)))))))).

(** Lines 172-176. *)
Definition keepalive_monitor (now : Z) : Proc State unit :=
  s <- get ;;
  when (30000 <=? NTP2MS (now - last_keepalive s)) (
    on_conn (on_env (print
      (KeepAliveAt (SECNTP now) (NTP2MS (now - start s))
         (TS2MS (frames s - latency s)
                (RaopClient.sample_rate (the_client s)))))) ;;
    set_last_keepalive now ;;
    on_conn (call_ c_keepalive RaopClient.keepalive)).

(** Lines 179-181.  [and] evaluates from left to right and stops at the
    first false operand: [accept_frames] is asked only while playing, the
    file is read only when the client accepts frames. *)
Definition stream_data : Proc State unit :=
  s <- get ;;
  if Status_eqb (status s) PLAYING then
    ok <- on_conn (call c_accept_frames RaopClient.accept_frames) ;;
    if (ok : bool) then
      data <- infile_read (MAX_SAMPLES_PER_CHUNK * 4) ;;
      if nonempty data then
        _ <- on_conn (call (c_send_chunk data) (RaopClient.send_chunk data)) ;;
        s' <- get ;;
        set_frames (frames s' + Z.of_nat (List.length data) / 4)
      else ret tt
    else ret tt
  else ret tt.

(** Lines 162-176: the clock is read once, then the two timed branches
    run on that reading. *)
Definition poll_clock : Proc State Z :=
  now <- on_conn (on_env get_ntp) ;;
  status_report now ;;
  keepalive_monitor now ;;
  ret now.

(** The body of the [while]; the result is the new value of [iterate]
    (line 183). *)
Definition loop_body : Proc State bool :=
  _ <- poll_clock ;;
  stream_data ;;
  s <- get ;;
  ret (RaopClient.is_playing (the_client s)).

(** *** The loop (lines 159-183)

    [iterate] is true on entry, so the body runs at least once, and the
    loop goes on as long as the body leaves [iterate] true.  The listener
    thread runs beside the loop: [sched] gives, round by round, the keys
    it handles before that round ([alive] tells whether the thread is
    still there; it is never started without the interactive flag).
    [None] means that [fuel] rounds were not enough to leave the loop. *)
Definition listener (alive : bool) (keys : list string) (s : State)
  : bool * State :=
  if alive then listen keys s else (false, s).

Fixpoint stream_loop (fuel : nat) (sched : list (list string))
    (alive : bool) (s : State) : option (Outcome unit * State) :=
  match fuel with
  | O => None
  | S n =>
      let (alive', s1) := listener alive (hd [] sched) s in
      match loop_body s1 with
      | (Return true, s2) => stream_loop n (tl sched) alive' s2
      | (Return false, s2) => Some (Return tt, s2)
      | (SystemExit c, s2) => Some (SystemExit c, s2)
      | (Raised e, s2) => Some (Raised e, s2)
      end
  end.

(** *** Start-up (lines 103-157) *)

(** Lines 106-112. *)
Definition dump_ntp (a : args.t) : Proc Env unit :=
  emit (ev_set_log_level (args.debug a)) ;;
  match given (args.ntp_file a) with
  | Some name =>
      open_write name ;;
      n <- get_ntp ;;
      write_file name (str n) ;;
      py_exit None
  | None => ret tt
  end.

(** Line 114. *)
Definition requested_latency (a : args.t) : Z :=
  match args.latency a with
  | Some l => if 0 <=? l then l else MS2TS 1000 44100
  | None => MS2TS 1000 44100
  end.

(** Lines 117-119. *)
Definition client_args (a : args.t) : ClientArgs :=
  mkClientArgs (args.server_ip a) 0 0 None None
    (if args.alac a then RAOP_ALAC else RAOP_PCM) MAX_SAMPLES_PER_CHUNK
    (requested_latency a) (if args.encrypt a then RAOP_RSA else RAOP_CLEAR)
    false (args.password a) (args.secret a) None None 44100 16 2
    (float_volume (args.volume a)).

(** Lines 122-125. *)
Definition read_start (a : args.t) : Proc Env Z :=
  match given (args.start_file a) with
  | Some name =>
      content <- open_read name ;;
      match py_int (string_of_list_byte content) with
      | Some n => ret n
      | None => raise ValueError
      end
  | None => ret (args.start a)
  end.

(** Lines 131-137. *)
Definition connect_or_exit (a : args.t) : Proc Conn unit :=
  ok <- call (c_connect (args.port a) true)
          (RaopClient.connect (args.port a) true) ;;
  (if negb ok then
     call_ c_destroy RaopClient.destroy ;;
     on_env (print (CanNotConnect (args.server_ip a))) ;;
     py_exit (Some 1)
   else ret tt) ;;
  k <- get ;;
  on_env (print (ConnectedTo (args.server_ip a) (args.port a)
    (TS2MS (RaopClient.latency (client k))
           (RaopClient.sample_rate (client k))))).

(** Lines 142-148, with [start], [args.wait] and [latency] as they are
    at that point. *)
Definition delayed_start (start wait latency : Z) : Proc Conn unit :=
  when (truthy (por start wait)) (
    now <- on_env get_ntp ;;
    k <- get ;;
    let ntp_latency := TS2NTP latency (RaopClient.sample_rate (client k)) in
    let start_at := por start now + MS2NTP wait - ntp_latency in
    let in_time :=
      if now <? start_at + ntp_latency
      then NTP2MS (start_at - now + ntp_latency) else 0 in
    on_env (print (NowAudioStartsAt (SECNTP now) (SECNTP start_at) in_time)) ;;
    call_ (c_start_at start_at) (RaopClient.start_at start_at)).

(** Lines 117-128: the client is created, [start] is settled and the
    input file is opened. *)
Definition prepare (a : args.t) : Proc Env (Z * list Byte.byte) :=
  emit (ev_call (c_create (client_args a))) ;;
  start <- read_start a ;;
  data <- open_read (args.filename a) ;;
  ret (start, data).

(** Lines 131-151: the connection, the latency the client reports, the
    delayed start and the clock value streaming begins at. *)
Definition negotiate (a : args.t) (start : Z) : Proc Conn (Z * Z) :=
  connect_or_exit a ;;
  k <- get ;;
  let latency := RaopClient.latency (client k) in
  delayed_start start (args.wait a) latency ;;
  start <- on_env get_ntp ;;
  ret (latency, start).

(** Lines 114-153: from the creation of the client to the state the loop
    starts in. *)
Definition open_session (a : args.t) (e : Env) : Outcome State * Env :=
  match prepare a e with
  | (Return (start, data), e) =>
      match negotiate a start
              (mkConn (RaopClient.create (client_args a)) e) with
      | (Return (latency, start), k) =>
          (Return (mkState k PLAYING latency start 0 0 start data), env k)
      | (SystemExit c, k) => (SystemExit c, env k)
      | (Raised x, k) => (Raised x, env k)
      end
  | (SystemExit c, e) => (SystemExit c, e)
  | (Raised x, e) => (Raised x, e)
  end.

(** Lines 186-188. *)
Definition end_streaming : Proc Conn unit :=
  on_env (emit ev_close_infile) ;;
  call_ c_disconnect RaopClient.disconnect ;;
  call_ c_destroy RaopClient.destroy.

(** *** The script (lines 102-188)

    The result is how the main thread ends and the environment it leaves
    behind; [None] when the loop is still running after [fuel] rounds. *)
Definition main (fuel : nat) (sched : list (list string)) (a : args.t)
    (e : Env) : option (Outcome unit * Env) :=
  match dump_ntp a e with
  | (Return _, e) =>
      match open_session a e with
      | (Return s, _) =>
          match stream_loop fuel sched (args.interactive a) s with
          | Some (Return _, s) =>
              let (r, k) := end_streaming (conn s) in Some (r, env k)
          | Some (SystemExit c, s) => Some (SystemExit c, env (conn s))
          | Some (Raised x, s) => Some (Raised x, env (conn s))
          | None => None
          end
      | (SystemExit c, e) => Some (SystemExit c, e)
      | (Raised x, e) => Some (Raised x, e)
      end
  | (SystemExit c, e) => Some (SystemExit c, e)
  | (Raised x, e) => Some (Raised x, e)
  end.

(** *** Runs of the loop, round by round

    A round is what happens between two tests of [iterate]: the keys the
    listener handles, then the body. *)
Definition round (keys : list string) (alive : bool) (s : State)
  : bool * State :=
  let (alive', s1) := listener alive keys s in
  (alive', exec loop_body s1).

Fixpoint rounds (n : nat) (sched : list (list string)) (alive : bool)
    (s : State) : bool * State :=
  match n with
  | O => (alive, s)
  | S k =>
      let (alive', s') := round (hd [] sched) alive s in
      rounds k (tl sched) alive' s'
  end.

(** The clock values the body reads at line 162 in the first [n] rounds. *)
Fixpoint round_nows (n : nat) (sched : list (list string)) (alive : bool)
    (s : State) : list Z :=
  match n with
  | O => []
  | S k =>
      let (alive', s1) := listener alive (hd [] sched) s in
      next_ntp s1
      :: round_nows k (tl sched) alive' (exec loop_body s1)
  end.

(** The states in which line 179 is reached in the first [n] rounds. *)
Fixpoint stream_points (n : nat) (sched : list (list string)) (alive : bool)
    (s : State) : list State :=
  match n with
  | O => []
  | S k =>
      let (alive', s1) := listener alive (hd [] sched) s in
      exec poll_clock s1
      :: stream_points k (tl sched) alive' (exec loop_body s1)
  end.

(** The loop is left after round [n+1] exactly when that is the first
    round after which the client is no longer playing. *)
Definition leaves_after (n : nat) (sched : list (list string))
    (alive : bool) (s : State) : Prop :=
  RaopClient.is_playing (the_client (snd (rounds (S n) sched alive s))) = false
  /\ forall m, (m < n)%nat ->
       RaopClient.is_playing (the_client (snd (rounds (S m) sched alive s)))
       = true.

(** The status lines so far are more than a second of shared time apart
    and none is later than [last]. *)
Definition status_paced (s : State) : Prop :=
  spaced (MS2NTP 1000) (status_stamps (the_trace s))
  /\ Forall (fun t => t <= last s) (status_stamps (the_trace s)).

(** Each status line printed so far shows a played time that [TS2MS]
    gives for a positive number of frames. *)
Definition shows_played (e : Event) : Prop :=
  match e with
  | ev_print (At _ _ played) =>
      exists ticks rate, 0 < ticks /\ played = TS2MS ticks rate
  | _ => True
  end.

(** Successive keepalive lines are at least 30000 ms apart, as [NTP2MS]
    measures it, and the latest one carries [last_keepalive]. *)
Definition keepalive_paced (s : State) : Prop :=
  chained (fun t u => 30000 <= NTP2MS (u - t))
    (keepalive_stamps (the_trace s))
  /\ (keepalive_stamps (the_trace s) = []
      \/ List.last (keepalive_stamps (the_trace s)) 0 = last_keepalive s).

(** Whether line 179 sends a chunk from a state, and the chunk it reads. *)
Definition sends (s : State) : bool :=
  Status_eqb (status s) PLAYING
  && fst (RaopClient.accept_frames (the_client s))
  && nonempty (infile s).

Definition next_chunk (s : State) : list Byte.byte :=
  fst (file_read (MAX_SAMPLES_PER_CHUNK * 4) (infile s)).

End Player.

Arguments client {C} _.
Arguments env {C} _.
Arguments conn {C} _.
Arguments status {C} _.
Arguments latency {C} _.
Arguments start {C} _.
Arguments last {C} _.
Arguments frames {C} _.
Arguments last_keepalive {C} _.
Arguments infile {C} _.
Arguments mkConn {C} _ _.
Arguments mkState {C} _ _ _ _ _ _ _ _.
Arguments the_client {C} _.
Arguments the_trace {C} _.
Arguments the_reads {C} _.
Arguments next_ntp {C} _.
Arguments same_cursor {C} _ _.
Arguments same_loop_events {C} _ _.
Arguments on_env {C A} _ _.
Arguments on_conn {C A} _ _.
Arguments call {C A} _ _ _.
Arguments call_ {C} _ _ _.
Arguments set_status {C} _ _.
Arguments set_last {C} _ _.
Arguments set_frames {C} _ _.
Arguments set_last_keepalive {C} _ _.
Arguments infile_read {C} _ _.
Arguments handle_key_event {L C RC} _ _.
Arguments listen {L C RC} _ _.
Arguments listener {L C RC} _ _ _.
Arguments status_report {L C RC} _ _.
Arguments keepalive_monitor {L C RC} _ _.
Arguments stream_data {L C RC} _.
Arguments poll_clock {L C RC} _.
Arguments loop_body {L C RC} _.
Arguments stream_loop {L C RC} _ _ _ _.
Arguments dump_ntp _ _ : clear implicits.
Arguments requested_latency {L} _.
Arguments client_args {L} _.
Arguments connect_or_exit {L C RC} _ _.
Arguments delayed_start {L C RC} _ _ _ _.
Arguments prepare {L} _ _ _.
Arguments negotiate {L C RC} _ _ _.
Arguments open_session {L C RC} _ _ _.
Arguments end_streaming {C RC} _.
Arguments main {L C RC} _ _ _ _ _.
Arguments round {L C RC} _ _ _.
Arguments rounds {L C RC} _ _ _ _.
Arguments round_nows {L C RC} _ _ _ _.
Arguments stream_points {L C RC} _ _ _ _.
Arguments sends {C RC} _.
Arguments leaves_after {L C RC} _ _ _ _.
Arguments status_paced {L C} _.
Arguments keepalive_paced {L C} _.
Arguments shows_played {L} _.
Arguments next_chunk {L C} _.

(** ** A sample instance

    Concrete conversions, a scripted client and a decimal parser, on which
    the model can be run. *)

Module Sample.

(** Modelled from the spec: the fixed scale of the shared time domain,
    which [libraop] defines and the script does not: [2^32] units to the
    second. *)
Definition ntp_scale : Z := 2 ^ 32.

(** Modelled from the spec: the conversion macros of [libraop], which the
    script imports and does not define.  Conversions between milliseconds,
    sample ticks and shared time are integer arithmetic on the fixed
    scale, with truncation toward zero on division ([Z.quot]).  The chunk
    size is a sample value. *)
#[export] Instance macros : LibRaop := {|
  MAX_SAMPLES_PER_CHUNK := 352;
  MS2TS := fun ms rate => Z.quot (ms * rate) 1000;
  TS2MS := fun ts rate => Z.quot (ts * 1000) rate;
  MS2NTP := fun ms => Z.quot (ms * ntp_scale) 1000;
  NTP2MS := fun ntp => Z.quot (ntp * 1000) ntp_scale;
  TS2NTP := fun ts rate => Z.quot (ts * ntp_scale) rate
|}.

(** A scripted client: it answers [connect] with [reachable], plays from
    a successful [connect] until [stop] or [disconnect], and answers
    [accept_frames] from a list of prepared answers, then always yes. *)
Record Mock := mkMock {
  reachable : bool;
  playing : bool;
  answers : list bool;
  mock_latency : Z;
  mock_rate : Z
}.

#[export] Instance mock_ops : RaopClient.Ops Mock := {|
  RaopClient.create := fun a =>
    mkMock true false [] (ca_latency a) (ca_sample_rate a);
  RaopClient.connect := fun _ _ m =>
    (reachable m,
     mkMock (reachable m) (reachable m) (answers m) (mock_latency m)
       (mock_rate m));
  RaopClient.disconnect := fun m =>
    mkMock (reachable m) false (answers m) (mock_latency m) (mock_rate m);
  RaopClient.destroy := fun m => m;
  RaopClient.start_at := fun _ m => m;
  RaopClient.pause := fun m => m;
  RaopClient.stop := fun m =>
    mkMock (reachable m) false (answers m) (mock_latency m) (mock_rate m);
  RaopClient.flush := fun m => m;
  RaopClient.keepalive := fun m => m;
  RaopClient.accept_frames := fun m =>
    (hd true (answers m),
     mkMock (reachable m) (playing m) (tl (answers m)) (mock_latency m)
       (mock_rate m));
  RaopClient.send_chunk := fun _ m => ((0, 0), m);
  RaopClient.is_playing := playing;
  RaopClient.latency := mock_latency;
  RaopClient.sample_rate := mock_rate
|}.

(** A client that cannot be reached. *)
Definition unreachable_ops : RaopClient.Ops Mock := {|
  RaopClient.create := fun a =>
    mkMock false false [] (ca_latency a) (ca_sample_rate a);
  RaopClient.connect := @RaopClient.connect _ mock_ops;
  RaopClient.disconnect := @RaopClient.disconnect _ mock_ops;
  RaopClient.destroy := @RaopClient.destroy _ mock_ops;
  RaopClient.start_at := @RaopClient.start_at _ mock_ops;
  RaopClient.pause := @RaopClient.pause _ mock_ops;
  RaopClient.stop := @RaopClient.stop _ mock_ops;
  RaopClient.flush := @RaopClient.flush _ mock_ops;
  RaopClient.keepalive := @RaopClient.keepalive _ mock_ops;
  RaopClient.accept_frames := @RaopClient.accept_frames _ mock_ops;
  RaopClient.send_chunk := @RaopClient.send_chunk _ mock_ops;
  RaopClient.is_playing := @RaopClient.is_playing _ mock_ops;
  RaopClient.latency := @RaopClient.latency _ mock_ops;
  RaopClient.sample_rate := @RaopClient.sample_rate _ mock_ops
|}.

(** Decimal integers, as [int] reads them when there is nothing around
    the digits. *)
Definition parse_int (s : string) : option Z :=
  option_map Z.of_int (NilZero.int_of_string s).

(** A clock that advances by a quarter of a second per reading, from
    [2^40]. *)
Definition quarter_clock (i : nat) : Z := 2 ^ 40 + Z.of_nat i * 2 ^ 30.

Definition no_files : string -> option (list Byte.byte) := fun _ => None.

Definition env0 : Env := mkEnv quarter_clock 0 [] no_files (fun _ => true).

(** [frames] frames of silence, four bytes each. *)
Definition silence (frames : Z) : list Byte.byte :=
  repeat Byte.x00 (Z.to_nat (4 * frames)).

(** A playing session at 44100 Hz whose clock reads [2^40] next. *)
Definition session (lat fr last_status last_alive : Z)
    (data : list Byte.byte) : State Mock :=
  mkState (mkConn (mkMock true true [] lat 44100) env0)
    PLAYING lat (2 ^ 40) last_status fr last_alive data.

(** The state the loop starts in, with latency 11025. *)
Definition playing0 (data : list Byte.byte) : State Mock :=
  session 11025 0 0 (2 ^ 40) data.

(** The last status test succeeded exactly one second of shared time
    before the next clock reading. *)
Definition at_boundary : State Mock :=
  session 11025 0 (2 ^ 40 - 2 ^ 32) (2 ^ 40) [].


(** The command line with a wait of 250 ms, and with an NTP file. *)
Definition cmdline_wait : args.t :=
  args.mk "192.168.1.20" "song.pcm" None 5000 50 None false 250 0 None
    false None None 0 false.

Definition cmdline_ntp : args.t :=
  args.mk "192.168.1.20" "song.pcm" (Some "ntp.txt"%string) 5000 50 None
    false 0 0 None false None None 0 false.

(** An environment that holds the song, three frames long. *)
Definition env_song : Env :=
  mkEnv quarter_clock 0 []
    (fun n => if String.eqb n "song.pcm" then Some (repeat Byte.x00 12)
              else None)
    (fun _ => true).

(** Keys: nothing, pause, nothing, stop. *)
Definition keys_pause_stop : list (list string) :=
  [[]; ["p"%string]; []; ["s"%string]].

Definition with_status (v : Status) (s : State Mock) : State Mock :=
  mkState (conn s) v (latency s) (start s) (last s) (frames s)
    (last_keepalive s) (infile s).

(** A session with a short latency and 5000 frames to play. *)
Definition short_latency : State Mock :=
  session 100 0 0 (2 ^ 40) (silence 5000).

(** The command line that reads its start from the file the NTP dump
    wrote. *)
Definition cmdline_start_file : args.t :=
  args.mk "192.168.1.20" "song.pcm" None 5000 50 None false 0 0
    (Some "ntp.txt"%string) false None None 0 false.

(** A command line naming a song that is not there. *)
Definition cmdline_missing : args.t :=
  args.mk "192.168.1.20" "absent.pcm" None 5000 50 None false 0 0 None
    false None None 0 false.

(** The plain command line: no wait, no start, no keys. *)
Definition cmdline_plain : args.t :=
  args.mk "192.168.1.20" "song.pcm" None 5000 50 (Some 0) false 0 0 None
    false None None 0 false.


(** An environment in which no file can be opened for writing. *)
Definition env_locked : Env :=
  mkEnv quarter_clock 0 [] no_files (fun _ => false).

(** A clock that advances by ten seconds per reading, from [2^40], and a
    session that starts on it. *)
Definition ten_second_clock (i : nat) : Z :=
  2 ^ 40 + Z.of_nat i * (10 * 2 ^ 32).

Definition slow_session : State Mock :=
  mkState
    (mkConn (mkMock true true [] 11025 44100)
       (mkEnv ten_second_clock 0 [] no_files (fun _ => true)))
    PLAYING 11025 (2 ^ 40) 0 0 (2 ^ 40) [].


(** The plain command line in interactive mode. *)
Definition cmdline_keys : args.t :=
  args.mk "192.168.1.20" "song.pcm" None 5000 50 (Some 0) false 0 0 None
    false None None 0 true.

(** The connection a session starts from. *)
Definition conn0 : Conn Mock :=
  mkConn (mkMock true true [] 44100 44100) env0.

(** A session whose input is six bytes, a frame and a half. *)
Definition odd_input : State Mock :=
  session 11025 0 0 (2 ^ 40)
    [Byte.x01; Byte.x02; Byte.x03; Byte.x04; Byte.x05; Byte.x06].

End Sample.

(** * Properties *)

(** Unfolds the plumbing of [Proc] down to pairs. *)
Ltac run :=
  cbv beta delta
    [bind ret get when py_exit raise exec on_conn on_env call call_ emit print
     get_ntp set_status set_last set_frames set_last_keepalive infile_read
     the_client the_trace the_reads next_ntp];
  cbn.

Section KeyEvents.

Context {L : LibRaop} {C : Type} {RC : RaopClient.Ops C}.

Lemma same_cursor_refl (s : State C) : same_cursor s s.
Proof. repeat split. Qed.

Lemma same_cursor_trans (s1 s2 s3 : State C) :
  same_cursor s1 s2 -> same_cursor s2 s3 -> same_cursor s1 s3.
Proof. unfold same_cursor; intuition congruence. Qed.

(** C6: the pause key.  While PLAYING, the handler calls pause and then
    flush on the client and the state becomes PAUSED; while PAUSED or
    STOPPED the key changes nothing at all: no call, same state. *)
Theorem pause_key (s : State C) :
  (status s = PLAYING ->
   exists s',
     handle_key_event "p" s = (Return tt, s')
     /\ status s' = PAUSED
     /\ the_client s' = RaopClient.flush (RaopClient.pause (the_client s))
     /\ the_trace s'
        = the_trace s
          ++ [ev_call c_pause; ev_call c_flush;
              ev_print (PauseAt (SECNTP (next_ntp s)))]
     /\ same_cursor s s')
  /\ (status s = PAUSED \/ status s = STOPPED ->
      handle_key_event "p" s = (Return tt, s)).
Proof.
  split.
  - intros Hs. unfold handle_key_event. run. rewrite Hs. run.
    eexists. split; [reflexivity|]. cbn.
    rewrite <- !app_assoc. repeat split.
  - intros Hs. unfold handle_key_event. run.
    destruct Hs as [Hs | Hs]; rewrite Hs; reflexivity.
Qed.

(** C7: the restart key.  From any state the state becomes PLAYING and
    the one call on the client is start_at, at the clock value just read
    plus MS2NTP(200) minus the client's latency converted by TS2NTP; no
    flush is called. *)
Theorem restart_key (s : State C) :
  let start_at :=
    next_ntp s + MS2NTP 200
    - TS2NTP (RaopClient.latency (the_client s))
             (RaopClient.sample_rate (the_client s)) in
  let t := SECNTP (clock (env (conn s)) (S (the_reads s))) in
  exists s',
    handle_key_event "r" s = (Return tt, s')
    /\ status s' = PLAYING
    /\ the_client s' = RaopClient.start_at start_at (the_client s)
    /\ the_trace s'
       = the_trace s ++ [ev_call (c_start_at start_at); ev_print (RestartedAt t)]
    /\ ~ In (ev_call c_flush) [ev_call (c_start_at start_at); ev_print (RestartedAt t)]
    /\ same_cursor s s'.
Proof.
  unfold handle_key_event. run.
  destruct (Status_eqb (status s) PLAYING); cbn;
    (eexists; split; [reflexivity|]; cbn;
     rewrite <- !app_assoc; repeat split;
     intros [H | [H | []]]; discriminate H).
Qed.

End KeyEvents.

(** ** The loop, piece by piece *)

Lemma pick_app {A} (f : Event -> option A) l l' :
  pick f (l ++ l') = pick f l ++ pick f l'.
Proof. apply flat_map_app. Qed.

Lemma zsum_app l l' : zsum (l ++ l') = zsum l + zsum l'.
Proof.
  unfold zsum. induction l as [|x l IH]; cbn [app fold_right]; [reflexivity|].
  rewrite IH. lia.
Qed.

Lemma bytes_sent_app tr tr' : bytes_sent (tr ++ tr') = bytes_sent tr + bytes_sent tr'.
Proof.
  unfold bytes_sent, sent_chunks.
  rewrite pick_app. rewrite map_app. apply zsum_app.
Qed.

Lemma file_read_spec n rest :
  0 < n ->
  fst (file_read n rest) ++ snd (file_read n rest) = rest
  /\ Z.of_nat (List.length (fst (file_read n rest))) <= n
  /\ nonempty (fst (file_read n rest)) = nonempty rest.
Proof.
  intros Hn. unfold file_read.
  destruct (Z.ltb_spec n 0) as [Hlt | _]; [lia|]. cbn [fst snd].
  split; [apply firstn_skipn|]. split.
  - rewrite length_firstn. lia.
  - destruct (Z.to_nat n) as [|k] eqn:Hk; [lia|]. now destruct rest.
Qed.

Lemma file_read_nil n : file_read n [] = ([], []).
Proof.
  unfold file_read. destruct (n <? 0); [reflexivity|].
  now rewrite firstn_nil, skipn_nil.
Qed.

(** Splits on every test the code makes. *)
Ltac branches :=
  repeat match goal with
    | |- context [RaopClient.accept_frames ?c] =>
        let E := fresh "Eacc" in
        destruct (RaopClient.accept_frames c) as [? ?] eqn:E; cbn
    | |- context [RaopClient.send_chunk ?d ?c] =>
        let E := fresh "Esend" in
        destruct (RaopClient.send_chunk d c) as [? ?] eqn:E; cbn
    | |- context [file_read ?n ?l] =>
        let E := fresh "Eread" in
        destruct (file_read n l) as [? ?] eqn:E; cbn
    | |- context [if ?b then _ else _] =>
        let E := fresh "Eb" in destruct b eqn:E; cbn
    end.

Ltac traces :=
  cbn;
  unfold bytes_sent, sent_chunks, status_stamps, keepalive_stamps,
    keepalive_calls, pick;
  rewrite ?flat_map_app; cbn; rewrite ?app_nil_r.

Section LoopFacts.

Context {L : LibRaop} {C : Type} {RC : RaopClient.Ops C}.

Lemma same_loop_events_refl (s : State C) : same_loop_events s s.
Proof. repeat split. Qed.

Lemma same_loop_events_trans (s1 s2 s3 : State C) :
  same_loop_events s1 s2 -> same_loop_events s2 s3 -> same_loop_events s1 s3.
Proof. unfold same_loop_events; intuition congruence. Qed.

(** A key never touches what the loop counts. *)
Lemma handle_key_event_quiet key (s : State C) :
  same_cursor s (exec (handle_key_event key) s)
  /\ same_loop_events s (exec (handle_key_event key) s).
Proof.
  unfold handle_key_event, same_cursor, same_loop_events. run. branches;
    traces; repeat split.
Qed.

Lemma listen_quiet keys (s : State C) :
  same_cursor s (snd (listen keys s))
  /\ same_loop_events s (snd (listen keys s)).
Proof.
  revert s. induction keys as [|key keys IH]; intros s; cbn [listen snd].
  - split; [apply same_cursor_refl | apply same_loop_events_refl].
  - pose proof (handle_key_event_quiet key s) as [Hc He].
    unfold exec in Hc, He.
    destruct (handle_key_event key s) as [[[] | code | e] s1];
      cbn [fst snd] in *.
    + destruct (IH s1) as [Hc' He']. split.
      * eapply same_cursor_trans; eassumption.
      * eapply same_loop_events_trans; eassumption.
    + now split.
    + now split.
Qed.

Lemma listener_quiet alive keys (s : State C) :
  same_cursor s (snd (listener alive keys s))
  /\ same_loop_events s (snd (listener alive keys s)).
Proof.
  unfold listener. destruct alive; [apply listen_quiet|].
  split; [apply same_cursor_refl | apply same_loop_events_refl].
Qed.

(** The pieces of the body always return. *)
Lemma status_report_returns now (s : State C) :
  fst (status_report now s) = Return tt.
Proof. unfold status_report. run. branches; reflexivity. Qed.

Lemma keepalive_monitor_returns now (s : State C) :
  fst (keepalive_monitor now s) = Return tt.
Proof. unfold keepalive_monitor. run. branches; reflexivity. Qed.

Lemma stream_data_returns (s : State C) : fst (stream_data s) = Return tt.
Proof. unfold stream_data. run. branches; reflexivity. Qed.

Lemma poll_clock_returns (s : State C) :
  fst (poll_clock s) = Return (next_ntp s).
Proof.
  unfold poll_clock, status_report, keepalive_monitor. run.
  branches; reflexivity.
Qed.

(** The body is the clock part followed by the streaming part. *)
Lemma loop_body_exec (s : State C) :
  exec loop_body s = exec stream_data (exec poll_clock s).
Proof.
  unfold loop_body, exec, bind.
  pose proof (poll_clock_returns s) as Hp.
  destruct (poll_clock s) as [r p]. cbn [fst snd] in *. subst r.
  pose proof (stream_data_returns p) as Hd.
  destruct (stream_data p) as [r q]. cbn [fst snd] in *. subst r.
  reflexivity.
Qed.

Lemma loop_body_returns (s : State C) :
  loop_body s
  = (Return (RaopClient.is_playing (the_client (exec loop_body s))),
     exec loop_body s).
Proof.
  unfold loop_body, exec, bind.
  pose proof (poll_clock_returns s) as Hp.
  destruct (poll_clock s) as [r p]. cbn [fst snd] in *. subst r.
  pose proof (stream_data_returns p) as Hd.
  destruct (stream_data p) as [r q]. cbn [fst snd] in *. subst r.
  reflexivity.
Qed.

(** The clock part sends nothing and leaves the playback state, the
    frame count and the input file alone. *)
Lemma poll_clock_no_data (s : State C) :
  status (exec poll_clock s) = status s
  /\ frames (exec poll_clock s) = frames s
  /\ infile (exec poll_clock s) = infile s
  /\ sent_chunks (the_trace (exec poll_clock s)) = sent_chunks (the_trace s).
Proof.
  unfold poll_clock, status_report, keepalive_monitor. run.
  branches; traces; repeat split.
Qed.

(** What line 179-181 does, by the three tests of line 179. *)
Lemma stream_data_effect (s : State C) :
  0 < MAX_SAMPLES_PER_CHUNK ->
  (sends s = true ->
     next_chunk s <> []
     /\ Z.of_nat (List.length (next_chunk s)) <= MAX_SAMPLES_PER_CHUNK * 4
     /\ next_chunk s ++ infile (exec stream_data s) = infile s
     /\ the_trace (exec stream_data s)
        = the_trace s
          ++ [ev_call c_accept_frames; ev_call (c_send_chunk (next_chunk s))]
     /\ frames (exec stream_data s)
        = frames s + Z.of_nat (List.length (next_chunk s)) / 4)
  /\ (sends s = false ->
        sent_chunks (the_trace (exec stream_data s)) = sent_chunks (the_trace s)
        /\ frames (exec stream_data s) = frames s
        /\ infile (exec stream_data s) = infile s).
Proof.
  intros Hmax.
  destruct (file_read_spec (MAX_SAMPLES_PER_CHUNK * 4) (infile s))
    as (Happ & Hlen & Hne); [lia|].
  unfold sends, next_chunk, stream_data. run.
  destruct (Status_eqb (status s) PLAYING); cbn;
    [|split; [discriminate | repeat split]].
  destruct (RaopClient.accept_frames (client (conn s))) as [ok c1]; cbn.
  destruct ok; cbn; [|split; [discriminate | intros _; traces; repeat split]].
  destruct (file_read (MAX_SAMPLES_PER_CHUNK * 4) (infile s)) as [data rest].
  cbn [fst snd] in *. rewrite <- Hne.
  destruct data as [|b data]; cbn [nonempty].
  - split; [discriminate | intros _; traces].
    cbn in Happ. subst rest. repeat split.
  - cbn. destruct (RaopClient.send_chunk (b :: data) c1) as [r c2]. cbn.
    split; [intros _ | discriminate].
    rewrite <- app_assoc. repeat split; try discriminate.
    + exact Hlen.
    + exact Happ.
Qed.

(** Paused, or at the end of the input, line 179 sends nothing. *)
Lemma stream_data_idle (s : State C) :
  status s = PAUSED \/ infile s = [] ->
  sent_chunks (the_trace (exec stream_data s)) = sent_chunks (the_trace s)
  /\ frames (exec stream_data s) = frames s.
Proof.
  intros [Hp | He]; unfold stream_data; run.
  - rewrite Hp. cbn. now split.
  - destruct (Status_eqb (status s) PLAYING); cbn; [|now split].
    destruct (RaopClient.accept_frames (client (conn s))) as [[|] c1]; cbn.
    + rewrite He, file_read_nil. traces. now split.
    + traces. now split.
Qed.

(** One round, seen from the data: the keys and the clock part change
    neither the frame count nor what was sent, the streaming part adds
    the chunk when the three tests hold. *)
Lemma round_data keys alive (s : State C) :
  0 < MAX_SAMPLES_PER_CHUNK ->
  let p := exec poll_clock (snd (listener alive keys s)) in
  let s' := snd (round keys alive s) in
  fst (round keys alive s) = fst (listener alive keys s)
  /\ s' = exec loop_body (snd (listener alive keys s))
  /\ bytes_sent (the_trace s')
     = bytes_sent (the_trace s)
       + (if sends p then Z.of_nat (List.length (next_chunk p)) else 0)
  /\ frames s'
     = frames s
       + (if sends p then Z.of_nat (List.length (next_chunk p)) / 4 else 0).
Proof.
  intros Hmax. unfold round.
  destruct (listener_quiet alive keys s) as [Hc He].
  destruct (listener alive keys s) as [alive' s1]. cbn [fst snd] in *.
  split; [reflexivity|]. split; [reflexivity|].
  rewrite loop_body_exec.
  destruct (poll_clock_no_data s1) as (_ & Hf & _ & Hs).
  destruct (stream_data_effect (exec poll_clock s1) Hmax) as [Hyes Hno].
  destruct Hc as (_ & _ & _ & Hfr & _). destruct He as (Hsent & _).
  unfold bytes_sent.
  destruct (sends (exec poll_clock s1)).
  - destruct Hyes as (_ & _ & _ & Htr & Hfr'); [reflexivity|].
    rewrite Htr, Hfr', Hf, Hfr. split; [|reflexivity].
    fold (bytes_sent (the_trace (exec poll_clock s1) ++
      [ev_call c_accept_frames;
       ev_call (c_send_chunk (next_chunk (exec poll_clock s1)))])).
    rewrite bytes_sent_app. unfold bytes_sent at 1. rewrite Hs, Hsent.
    cbn. lia.
  - destruct Hno as (Hs' & Hfr' & _); [reflexivity|].
    rewrite Hs', Hs, Hsent, Hfr', Hf, Hfr. lia.
Qed.

(** C2: the streaming step.  With a positive chunk size: the maximum read
    is MAX_SAMPLES_PER_CHUNK*4 bytes, a multiple of the 4 bytes of a
    frame; the body of the loop is the clock part followed by line 179,
    and the clock part changes none of the state, the frame count and the
    input; at line 179 a chunk is sent exactly when the state is PLAYING,
    accept_frames answers true and the input has bytes left ([sends]); the
    chunk is then the next at most MAX_SAMPLES_PER_CHUNK*4 bytes of the
    input, not empty, and frames grows by its length divided by 4;
    otherwise nothing is sent and frames and input stay; over any number
    of rounds, with any keys in between, the bytes sent and the frames
    counted are the sums over the rounds in which the three tests held. *)
Theorem chunks_sent :
  0 < MAX_SAMPLES_PER_CHUNK ->
  (MAX_SAMPLES_PER_CHUNK * 4) mod 4 = 0
  /\ (forall s : State C,
        exec loop_body s = exec stream_data (exec poll_clock s)
        /\ status (exec poll_clock s) = status s
        /\ frames (exec poll_clock s) = frames s
        /\ infile (exec poll_clock s) = infile s)
  /\ (forall s : State C,
        (sends s = true ->
           sent_chunks (the_trace (exec stream_data s))
           = sent_chunks (the_trace s) ++ [next_chunk s]
           /\ next_chunk s <> []
           /\ Z.of_nat (List.length (next_chunk s)) <= MAX_SAMPLES_PER_CHUNK * 4
           /\ next_chunk s ++ infile (exec stream_data s) = infile s
           /\ frames (exec stream_data s)
              = frames s + Z.of_nat (List.length (next_chunk s)) / 4)
        /\ (sends s = false ->
              sent_chunks (the_trace (exec stream_data s))
              = sent_chunks (the_trace s)
              /\ frames (exec stream_data s) = frames s
              /\ infile (exec stream_data s) = infile s))
  /\ (forall n sched alive (s : State C),
        let s' := snd (rounds n sched alive s) in
        let points := stream_points n sched alive s in
        bytes_sent (the_trace s')
        = bytes_sent (the_trace s)
          + zsum (map (fun p => if sends p
                                then Z.of_nat (List.length (next_chunk p))
                                else 0) points)
        /\ frames s'
           = frames s
             + zsum (map (fun p => if sends p
                                   then Z.of_nat (List.length (next_chunk p)) / 4
                                   else 0) points)).
Proof.
  intros Hmax. split; [apply Z.mod_mul; lia|]. split; [|split].
  - intros s. split; [apply loop_body_exec|].
    destruct (poll_clock_no_data s) as (H1 & H2 & H3 & _). auto.
  - intros s. destruct (stream_data_effect s Hmax) as [Hyes Hno]. split.
    + intros Hs. destruct (Hyes Hs) as (H1 & H2 & H3 & H4 & H5).
      repeat split; try assumption.
      rewrite H4. unfold sent_chunks. rewrite pick_app. cbn.
      reflexivity.
    + exact Hno.
  - induction n as [|n IH]; intros sched alive s.
    + cbn. split; lia.
    + cbn [rounds stream_points].
      pose proof (round_data (hd [] sched) alive s Hmax) as (Ha & Hs & Hb & Hf).
      destruct (round (hd [] sched) alive s) as [alive' s1].
      destruct (listener alive (hd [] sched) s) as [alive1 s0].
      cbn [fst snd] in *. subst alive1 s1.
      specialize (IH (tl sched) alive' (exec loop_body s0)).
      cbn zeta in IH. destruct IH as [IHb IHf].
      cbn [map]. rewrite IHb, IHf, Hb, Hf.
      unfold zsum. cbn [fold_right]. split; lia.
Qed.

(** The two timed branches and the clock, per round. *)
Lemma loop_body_polls (s : State C) :
  let now := next_ntp s in
  let s' := exec loop_body s in
  the_reads s' = S (the_reads s)
  /\ last s' = (if MS2NTP 1000 <? now - last s then now else last s)
  /\ last_keepalive s'
     = (if 30000 <=? NTP2MS (now - last_keepalive s) then now
        else last_keepalive s).
Proof.
  unfold loop_body, poll_clock, status_report, keepalive_monitor,
    stream_data.
  run. branches; repeat split.
Qed.

(** One more round of the loop, written with [round]. *)
Lemma stream_loop_step fuel sched alive (s : State C) :
  stream_loop (S fuel) sched alive s
  = if RaopClient.is_playing (the_client (snd (round (hd [] sched) alive s)))
    then stream_loop fuel (tl sched) (fst (round (hd [] sched) alive s))
           (snd (round (hd [] sched) alive s))
    else Some (Return tt, snd (round (hd [] sched) alive s)).
Proof.
  cbn [stream_loop]. unfold round.
  destruct (listener alive (hd [] sched) s) as [alive' s1].
  rewrite loop_body_returns. cbn [fst snd].
  destruct (RaopClient.is_playing (the_client (exec loop_body s1)));
    reflexivity.
Qed.

Lemma rounds_step n sched alive (s : State C) :
  rounds (S n) sched alive s
  = rounds n (tl sched) (fst (round (hd [] sched) alive s))
      (snd (round (hd [] sched) alive s)).
Proof.
  cbn [rounds]. now destruct (round (hd [] sched) alive s).
Qed.

Lemma stream_loop_leaves fuel : forall sched alive (s : State C) r,
  stream_loop fuel sched alive s = Some r ->
  exists n, (n < fuel)%nat /\ leaves_after n sched alive s
            /\ r = (Return tt, snd (rounds (S n) sched alive s)).
Proof.
  induction fuel as [|fuel IH]; intros sched alive s r; [discriminate|].
  rewrite stream_loop_step.
  destruct (RaopClient.is_playing
              (the_client (snd (round (hd [] sched) alive s)))) eqn:Hp.
  - intros Hr. destruct (IH _ _ _ _ Hr) as (n & Hn & [Hoff Hon] & ->).
    exists (S n). split; [lia|]. split; [split|].
    + rewrite rounds_step. exact Hoff.
    + intros [|m] Hm.
      * rewrite rounds_step. exact Hp.
      * rewrite rounds_step. apply Hon. lia.
    + now rewrite (rounds_step (S n)).
  - intros [= <-]. exists 0%nat. split; [lia|]. split; [split|].
    + rewrite rounds_step. exact Hp.
    + intros m Hm. lia.
    + now rewrite rounds_step.
Qed.

Lemma leaves_stream_loop n : forall fuel sched alive (s : State C),
  (n < fuel)%nat -> leaves_after n sched alive s ->
  stream_loop fuel sched alive s
  = Some (Return tt, snd (rounds (S n) sched alive s)).
Proof.
  induction n as [|n IH]; intros [|fuel] sched alive s Hf [Hoff Hon];
    try lia; rewrite stream_loop_step.
  - rewrite rounds_step in Hoff. cbn [rounds snd] in Hoff. rewrite Hoff.
    now rewrite rounds_step.
  - pose proof (Hon 0%nat ltac:(lia)) as H0.
    rewrite rounds_step in H0. cbn [rounds snd] in H0. rewrite H0.
    rewrite (rounds_step (S n)). apply IH; [lia|]. split.
    + now rewrite <- rounds_step.
    + intros m Hm. rewrite <- rounds_step. apply Hon. lia.
Qed.

(** C3: leaving the loop.  Every round, whatever the playback state and
    whatever is left of the input, reads the clock once, makes the status
    test and the keepalive test on that reading, and hands the client's
    is_playing flag to [iterate]; a round that is paused or has no input
    left sends nothing.  The loop goes on while the flag is true and is
    left, normally, after the first round that ends with the flag false:
    with enough fuel that round is reached, and the loop is left nowhere
    else. *)
Theorem loop_exit :
  (forall s : State C,
     let now := next_ntp s in
     let s' := exec loop_body s in
     loop_body s = (Return (RaopClient.is_playing (the_client s')), s')
     /\ the_reads s' = S (the_reads s)
     /\ last s' = (if MS2NTP 1000 <? now - last s then now else last s)
     /\ last_keepalive s'
        = (if 30000 <=? NTP2MS (now - last_keepalive s) then now
           else last_keepalive s)
     /\ (status s = PAUSED \/ infile s = [] ->
         sent_chunks (the_trace s') = sent_chunks (the_trace s)
         /\ frames s' = frames s))
  /\ (forall fuel sched alive (s : State C),
        stream_loop (S fuel) sched alive s
        = if RaopClient.is_playing
               (the_client (snd (round (hd [] sched) alive s)))
          then stream_loop fuel (tl sched) (fst (round (hd [] sched) alive s))
                 (snd (round (hd [] sched) alive s))
          else Some (Return tt, snd (round (hd [] sched) alive s)))
  /\ (forall fuel sched alive (s : State C) r,
        stream_loop fuel sched alive s = Some r <->
        exists n, (n < fuel)%nat /\ leaves_after n sched alive s
                  /\ r = (Return tt, snd (rounds (S n) sched alive s))).
Proof.
  split; [|split].
  - intros s now s'. split; [apply loop_body_returns|].
    destruct (loop_body_polls s) as (Hr & Hl & Hk).
    split; [assumption|]. split; [assumption|]. split; [assumption|].
    + intros Hidle. subst s'. rewrite loop_body_exec.
      destruct (poll_clock_no_data s) as (Hst & Hfr & Hin & Hsent).
      destruct (stream_data_idle (exec poll_clock s)) as [H1 H2];
        [now rewrite Hst, Hin|].
      split; congruence.
  - apply stream_loop_step.
  - intros fuel sched alive s r. split.
    + apply stream_loop_leaves.
    + intros (n & Hn & Hl & ->). now apply leaves_stream_loop.
Qed.

(** *** The status line *)

Lemma spaced_snoc gap l t :
  spaced gap (l ++ [t]) <-> spaced gap l /\ Forall (fun u => gap < t - u) l.
Proof.
  induction l as [|u l IH]; cbn [app spaced].
  - split; [intros _; split; [exact I | constructor]|].
    intros _. split; [constructor | exact I].
  - rewrite Forall_app, IH. split.
    + intros ((Hl & Ht) & Hs & Hf). inversion Ht; subst.
      repeat split; try assumption. now constructor.
    + intros ((Hl & Hs) & Hf). inversion Hf; subst.
      repeat split; try assumption. now repeat constructor.
Qed.

(** What the clock part does to [last] and to the status lines. *)
Lemma poll_clock_status (s : State C) :
  let now := next_ntp s in
  let s' := exec poll_clock s in
  last s' = (if MS2NTP 1000 <? now - last s then now else last s)
  /\ status_stamps (the_trace s')
     = status_stamps (the_trace s)
       ++ (if (MS2NTP 1000 <? now - last s)
              && (truthy (frames s) && (latency s <? frames s))
           then [now] else []).
Proof.
  unfold poll_clock, status_report, keepalive_monitor. run.
  branches; traces; repeat split.
Qed.

(** Line 179-181 leaves the clock variables and the timed lines alone. *)
Lemma stream_data_no_clock (s : State C) :
  last (exec stream_data s) = last s
  /\ last_keepalive (exec stream_data s) = last_keepalive s
  /\ status_stamps (the_trace (exec stream_data s)) = status_stamps (the_trace s)
  /\ keepalive_stamps (the_trace (exec stream_data s))
     = keepalive_stamps (the_trace s)
  /\ keepalive_calls (the_trace (exec stream_data s))
     = keepalive_calls (the_trace s).
Proof. unfold stream_data. run. branches; traces; repeat split. Qed.

Lemma loop_body_paced (s : State C) :
  0 <= MS2NTP 1000 -> status_paced s -> status_paced (exec loop_body s).
Proof.
  intros Hgap [Hsp Hle]. unfold status_paced.
  rewrite loop_body_exec.
  destruct (stream_data_no_clock (exec poll_clock s)) as (-> & _ & -> & _).
  destruct (poll_clock_status s) as (-> & ->).
  destruct (Z.ltb_spec (MS2NTP 1000) (next_ntp s - last s)) as [Hfire | Hnot];
    cbn [andb].
  - destruct (truthy (frames s) && (latency s <? frames s)).
    + split.
      * apply spaced_snoc. split; [assumption|].
        eapply Forall_impl; [|exact Hle]. cbn. intros t Ht. lia.
      * apply Forall_app. split.
        -- eapply Forall_impl; [|exact Hle]. cbn. intros t Ht. lia.
        -- repeat constructor. lia.
    + rewrite app_nil_r. split; [assumption|].
      eapply Forall_impl; [|exact Hle]. cbn. intros t Ht. lia.
  - rewrite app_nil_r. now split.
Qed.

Lemma listener_paced alive keys (s : State C) :
  status_paced s -> status_paced (snd (listener alive keys s)).
Proof.
  unfold status_paced.
  destruct (listener_quiet alive keys s)
    as [(_ & _ & Hl & _) (_ & Hst & _)].
  now rewrite Hl, Hst.
Qed.

Lemma rounds_paced n : forall sched alive (s : State C),
  0 <= MS2NTP 1000 -> status_paced s ->
  status_paced (snd (rounds n sched alive s)).
Proof.
  induction n as [|n IH]; intros sched alive s Hgap Hs; [exact Hs|].
  rewrite rounds_step. apply IH; [assumption|]. unfold round.
  pose proof (listener_paced alive (hd [] sched) s Hs) as H1.
  destruct (listener alive (hd [] sched) s) as [alive' s1].
  cbn [snd] in *. now apply loop_body_paced.
Qed.

(** Every event a round adds shows a played time of a positive number of
    frames, when it is a status line. *)
Lemma handle_key_event_shows key (s : State C) :
  Forall shows_played (the_trace s) ->
  Forall shows_played (the_trace (exec (handle_key_event key) s)).
Proof.
  intros H. unfold handle_key_event. run.
  branches; rewrite ?Forall_app; repeat split; try assumption;
    repeat constructor.
Qed.

Lemma listener_shows alive keys : forall s : State C,
  Forall shows_played (the_trace s) ->
  Forall shows_played (the_trace (snd (listener alive keys s))).
Proof.
  unfold listener. destruct alive; [|now intros].
  induction keys as [|key keys IH]; intros s Hs; cbn [listen snd];
    [assumption|].
  pose proof (handle_key_event_shows key s Hs) as H1. unfold exec in H1.
  destruct (handle_key_event key s) as [[[] | code | e] s1];
    cbn [fst snd] in *; auto.
Qed.

Lemma loop_body_shows (s : State C) :
  Forall shows_played (the_trace s) ->
  Forall shows_played (the_trace (exec loop_body s)).
Proof.
  intros H.
  unfold loop_body, poll_clock, status_report, keepalive_monitor,
    stream_data.
  run. branches; rewrite ?Forall_app; repeat split; try assumption;
    repeat constructor;
    match goal with
    | |- shows_played _ =>
        cbn; do 2 eexists; split; [|reflexivity];
        match goal with
        | E : _ && (_ <? _) = true |- _ =>
            apply andb_prop in E; destruct E as [_ E];
            apply Z.ltb_lt in E; lia
        end
    end.
Qed.

Lemma rounds_shows n : forall sched alive (s : State C),
  Forall shows_played (the_trace s) ->
  Forall shows_played (the_trace (snd (rounds n sched alive s))).
Proof.
  induction n as [|n IH]; intros sched alive s Hs; [exact Hs|].
  rewrite rounds_step. apply IH. unfold round.
  pose proof (listener_shows alive (hd [] sched) s Hs) as H1.
  destruct (listener alive (hd [] sched) s) as [alive' s1].
  cbn [snd] in *. now apply loop_body_shows.
Qed.

Lemma no_stamp_shows tr : status_stamps tr = [] -> Forall shows_played tr.
Proof.
  induction tr as [|e tr IH]; [constructor|].
  unfold status_stamps, pick. cbn [flat_map]. intros H.
  apply app_eq_nil in H. destruct H as [He Htr].
  constructor; [|now apply IH].
  destruct e as [| |[]| |]; cbn; try exact I. discriminate He.
Qed.

(** C4, as the code has it.  The status test of a round succeeds exactly
    when the clock reading exceeds last by MORE than MS2NTP(1000); last
    then becomes the reading whether or not a line is printed, and the
    line is printed exactly when, besides, frames is not zero and exceeds
    the latency; the played time it shows is TS2MS of frames - latency, a
    positive number of frames, hence not negative when TS2MS gives
    non-negative times for positive frame counts.  When the test fails
    nothing changes.  Over any number of rounds, with any keys in
    between, from a trace without status lines: any two status lines are
    more than MS2NTP(1000) apart and every one shows the played time of a
    positive number of frames. *)
Theorem status_line_pace :
  0 <= MS2NTP 1000 ->
  (forall now (s : State C),
     let s' := exec (status_report now) s in
     let played :=
       TS2MS (frames s - latency s) (RaopClient.sample_rate (the_client s)) in
     fst (status_report now s) = Return tt
     /\ (MS2NTP 1000 < now - last s ->
         last s' = now
         /\ (frames s <> 0 /\ latency s < frames s ->
             the_trace s'
             = the_trace s
               ++ [ev_print (At (SECNTP now) (NTP2MS (now - start s)) played)]
             /\ 0 < frames s - latency s
             /\ ((forall ticks, 0 < ticks ->
                    0 <= TS2MS ticks (RaopClient.sample_rate (the_client s))) ->
                 0 <= played))
         /\ (frames s = 0 \/ frames s <= latency s ->
             the_trace s' = the_trace s))
     /\ (now - last s <= MS2NTP 1000 -> s' = s))
  /\ (forall s : State C,
        let now := next_ntp s in
        let s' := exec loop_body s in
        last s' = (if MS2NTP 1000 <? now - last s then now else last s)
        /\ status_stamps (the_trace s')
           = status_stamps (the_trace s)
             ++ (if (MS2NTP 1000 <? now - last s)
                    && (truthy (frames s) && (latency s <? frames s))
                 then [now] else []))
  /\ (forall n sched alive (s : State C),
        status_stamps (the_trace s) = [] ->
        spaced (MS2NTP 1000)
          (status_stamps (the_trace (snd (rounds n sched alive s))))
        /\ Forall shows_played (the_trace (snd (rounds n sched alive s)))).
Proof.
  intros Hgap. split; [|split].
  - intros now s s' played. split; [apply status_report_returns|].
    subst s' played. unfold status_report, truthy. run. split.
    + intros Hfire. apply Z.ltb_lt in Hfire. rewrite Hfire. cbn.
      split; [|split].
      * branches; reflexivity.
      * intros [Hnz Hlat].
        apply Z.eqb_neq in Hnz. apply Z.ltb_lt in Hlat as Hlat'.
        rewrite Hnz, Hlat'. cbn.
        split; [reflexivity|]. split; [lia|]. intros H. apply H. lia.
      * intros [Hz | Hle].
        -- rewrite Hz. reflexivity.
        -- apply Z.ltb_ge in Hle. rewrite Hle, andb_false_r. reflexivity.
    + intros Hnot. apply Z.ltb_ge in Hnot. now rewrite Hnot.
  - intros s now s'. subst now s'. rewrite loop_body_exec.
    destruct (stream_data_no_clock (exec poll_clock s)) as (-> & _ & -> & _).
    apply poll_clock_status.
  - intros n sched alive s Hnone. split.
    + apply rounds_paced; [assumption|].
      unfold status_paced. rewrite Hnone. repeat constructor.
    + apply rounds_shows. now apply no_stamp_shows.
Qed.

(** *** The keepalive *)

Lemma chained_snoc R l t :
  chained R (l ++ [t]) <-> chained R l /\ (l = [] \/ R (List.last l 0) t).
Proof.
  induction l as [|u l IH]; cbn [app chained].
  - intuition.
  - rewrite IH. destruct l as [|v l]; cbn [app chained List.last].
    + intuition discriminate.
    + intuition discriminate.
Qed.

(** What the clock part does to [last_keepalive], to the keepalive lines
    and to the calls of keepalive. *)
Lemma poll_clock_keepalive (s : State C) :
  let now := next_ntp s in
  let s' := exec poll_clock s in
  let fires := 30000 <=? NTP2MS (now - last_keepalive s) in
  last_keepalive s' = (if fires then now else last_keepalive s)
  /\ keepalive_stamps (the_trace s')
     = keepalive_stamps (the_trace s) ++ (if fires then [now] else [])
  /\ keepalive_calls (the_trace s')
     = keepalive_calls (the_trace s) ++ (if fires then [tt] else []).
Proof.
  unfold poll_clock, status_report, keepalive_monitor. run.
  branches; traces; repeat split.
Qed.

Lemma loop_body_keepalive (s : State C) :
  let now := next_ntp s in
  let s' := exec loop_body s in
  let fires := 30000 <=? NTP2MS (now - last_keepalive s) in
  last_keepalive s' = (if fires then now else last_keepalive s)
  /\ keepalive_stamps (the_trace s')
     = keepalive_stamps (the_trace s) ++ (if fires then [now] else [])
  /\ keepalive_calls (the_trace s')
     = keepalive_calls (the_trace s) ++ (if fires then [tt] else []).
Proof.
  cbn zeta. rewrite loop_body_exec.
  destruct (stream_data_no_clock (exec poll_clock s))
    as (_ & -> & _ & -> & ->).
  apply poll_clock_keepalive.
Qed.

Lemma loop_body_keepalive_paced (s : State C) :
  keepalive_paced s -> keepalive_paced (exec loop_body s).
Proof.
  intros [Hch Hlast]. unfold keepalive_paced.
  destruct (loop_body_keepalive s) as (-> & -> & _).
  destruct (Z.leb_spec 30000 (NTP2MS (next_ntp s - last_keepalive s)))
    as [Hfire | Hnot].
  - split.
    + apply chained_snoc. split; [assumption|].
      destruct Hlast as [Hnil | ->]; [now left | now right].
    + right. apply last_last.
  - rewrite app_nil_r. now split.
Qed.

Lemma listener_keepalive_paced alive keys (s : State C) :
  keepalive_paced s -> keepalive_paced (snd (listener alive keys s)).
Proof.
  unfold keepalive_paced.
  destruct (listener_quiet alive keys s)
    as [(_ & _ & _ & _ & Hl & _) (_ & _ & Hst & _)].
  now rewrite Hl, Hst.
Qed.

Lemma rounds_keepalive_paced n : forall sched alive (s : State C),
  keepalive_paced s -> keepalive_paced (snd (rounds n sched alive s)).
Proof.
  induction n as [|n IH]; intros sched alive s Hs; [exact Hs|].
  rewrite rounds_step. apply IH. unfold round.
  pose proof (listener_keepalive_paced alive (hd [] sched) s Hs) as H1.
  destruct (listener alive (hd [] sched) s) as [alive' s1].
  cbn [snd] in *. now apply loop_body_keepalive_paced.
Qed.

(** One round and the keepalive, keys included. *)
Lemma round_keepalive keys alive (s : State C) :
  let s1 := snd (listener alive keys s) in
  let now := next_ntp s1 in
  let s' := snd (round keys alive s) in
  let fires := 30000 <=? NTP2MS (now - last_keepalive s) in
  last_keepalive s' = (if fires then now else last_keepalive s)
  /\ keepalive_stamps (the_trace s')
     = keepalive_stamps (the_trace s) ++ (if fires then [now] else [])
  /\ keepalive_calls (the_trace s')
     = keepalive_calls (the_trace s) ++ (if fires then [tt] else []).
Proof.
  cbn zeta. unfold round.
  destruct (listener_quiet alive keys s)
    as [(_ & _ & _ & _ & Hl & _) (_ & _ & Hst & Hca)].
  destruct (listener alive keys s) as [alive' s1]. cbn [snd] in *.
  rewrite <- Hl, <- Hst, <- Hca. apply loop_body_keepalive.
Qed.

(** While the test fails, round after round, nothing of the keepalive
    moves. *)
Lemma rounds_before_keepalive n : forall sched alive (s : State C),
  Forall (fun u => NTP2MS (u - last_keepalive s) < 30000)
    (round_nows n sched alive s) ->
  let s' := snd (rounds n sched alive s) in
  last_keepalive s' = last_keepalive s
  /\ keepalive_stamps (the_trace s') = keepalive_stamps (the_trace s)
  /\ keepalive_calls (the_trace s') = keepalive_calls (the_trace s).
Proof.
  induction n as [|n IH]; intros sched alive s Hq; [repeat split|].
  cbn zeta. rewrite rounds_step. cbn [round_nows] in Hq.
  pose proof (round_keepalive (hd [] sched) alive s) as Hr.
  cbn zeta in Hr. unfold round in *.
  destruct (listener alive (hd [] sched) s) as [alive' s1].
  cbn [fst snd] in *. inversion Hq as [|u l Hu Hl]; subst.
  apply Z.leb_gt in Hu. rewrite Hu, !app_nil_r in Hr.
  destruct Hr as (Hk & Hs & Hc).
  rewrite <- Hk in Hl. destruct (IH _ _ _ Hl) as (H1 & H2 & H3).
  cbn zeta in *. rewrite H1, H2, H3. auto.
Qed.

(** The first round whose reading passes the test calls keepalive. *)
Lemma rounds_first_keepalive n : forall sched alive (s : State C) early t,
  round_nows (S n) sched alive s = early ++ [t] ->
  Forall (fun u => NTP2MS (u - last_keepalive s) < 30000) early ->
  30000 <= NTP2MS (t - last_keepalive s) ->
  let s' := snd (rounds (S n) sched alive s) in
  last_keepalive s' = t
  /\ keepalive_stamps (the_trace s') = keepalive_stamps (the_trace s) ++ [t]
  /\ keepalive_calls (the_trace s') = keepalive_calls (the_trace s) ++ [tt].
Proof.
  induction n as [|n IH]; intros sched alive s early t Hn Hq Ht; cbn zeta;
    rewrite rounds_step; cbn [round_nows] in Hn;
    pose proof (round_keepalive (hd [] sched) alive s) as Hr;
    cbn zeta in Hr; unfold round in *;
    destruct (listener alive (hd [] sched) s) as [alive' s1];
    cbn [fst snd] in *.
  - cbn [rounds snd].
    destruct early as [|e [|e' early]]; try discriminate Hn.
    injection Hn as Hn. rewrite Hn in Hr.
    apply Z.leb_le in Ht. now rewrite Ht in Hr.
  - destruct early as [|e early].
    + cbn [app] in Hn. injection Hn as _ Hn.
      destruct (listener alive' (hd [] (tl sched)) (exec loop_body s1));
        discriminate Hn.
    + cbn [app] in Hn. injection Hn as He Hn. subst e.
      inversion Hq as [|u l Hu Hl]; subst.
      apply Z.leb_gt in Hu. rewrite Hu, !app_nil_r in Hr.
      destruct Hr as (Hk & Hs & Hc).
      rewrite <- Hk in Hl, Ht.
      pose proof (IH _ _ _ _ _ Hn Hl Ht) as H. cbn zeta in H.
      rewrite Hs, Hc in H. exact H.
Qed.

(** C5: the keepalive.  The keepalive test of a round succeeds exactly
    when NTP2MS of the clock reading minus last_keepalive is at least
    30000; the round then prints the keepalive line, sets last_keepalive
    to the reading and calls keepalive on the client, in that order, and
    otherwise does nothing of it.  So from any state the call is made in
    the first round whose reading passes the test and in none before it,
    and successive keepalive lines are at least 30000 ms apart. *)
Theorem keepalive_pace :
  (forall now (s : State C),
     let s' := exec (keepalive_monitor now) s in
     fst (keepalive_monitor now s) = Return tt
     /\ (30000 <= NTP2MS (now - last_keepalive s) ->
         the_trace s'
         = the_trace s
           ++ [ev_print
                 (KeepAliveAt (SECNTP now) (NTP2MS (now - start s))
                    (TS2MS (frames s - latency s)
                       (RaopClient.sample_rate (the_client s))));
               ev_call c_keepalive]
         /\ last_keepalive s' = now
         /\ the_client s' = RaopClient.keepalive (the_client s))
     /\ (NTP2MS (now - last_keepalive s) < 30000 -> s' = s))
  /\ (forall s : State C,
        let now := next_ntp s in
        let s' := exec loop_body s in
        let fires := 30000 <=? NTP2MS (now - last_keepalive s) in
        last_keepalive s' = (if fires then now else last_keepalive s)
        /\ keepalive_stamps (the_trace s')
           = keepalive_stamps (the_trace s) ++ (if fires then [now] else [])
        /\ keepalive_calls (the_trace s')
           = keepalive_calls (the_trace s) ++ (if fires then [tt] else []))
  /\ (forall n sched alive (s : State C) early t,
        round_nows (S n) sched alive s = early ++ [t] ->
        Forall (fun u => NTP2MS (u - last_keepalive s) < 30000) early ->
        30000 <= NTP2MS (t - last_keepalive s) ->
        (last_keepalive (snd (rounds n sched alive s)) = last_keepalive s
         /\ keepalive_calls (the_trace (snd (rounds n sched alive s)))
            = keepalive_calls (the_trace s))
        /\ last_keepalive (snd (rounds (S n) sched alive s)) = t
        /\ keepalive_stamps (the_trace (snd (rounds (S n) sched alive s)))
           = keepalive_stamps (the_trace s) ++ [t]
        /\ keepalive_calls (the_trace (snd (rounds (S n) sched alive s)))
           = keepalive_calls (the_trace s) ++ [tt])
  /\ (forall n sched alive (s : State C),
        keepalive_stamps (the_trace s) = [] ->
        chained (fun t u => 30000 <= NTP2MS (u - t))
          (keepalive_stamps (the_trace (snd (rounds n sched alive s))))).
Proof.
  split; [|split; [|split]].
  - intros now s s'. split; [apply keepalive_monitor_returns|].
    subst s'. unfold keepalive_monitor. run. split.
    + intros Hfire. apply Z.leb_le in Hfire. rewrite Hfire. cbn.
      rewrite <- app_assoc. repeat split.
    + intros Hnot. apply Z.leb_gt in Hnot. now rewrite Hnot.
  - apply loop_body_keepalive.
  - intros n sched alive s early t Hn Hq Ht. split.
    + assert (Hpre : round_nows n sched alive s = early).
      { clear Hq Ht. revert sched alive s early Hn.
        induction n as [|n IH]; intros sched alive s early Hn;
          cbn [round_nows] in *;
          destruct (listener alive (hd [] sched) s) as [alive' s1].
        - destruct early as [|e [|e' early]]; try discriminate Hn.
          reflexivity.
        - destruct early as [|e early]; cbn [app] in Hn.
          + injection Hn as _ Hn.
            destruct (listener alive' (hd [] (tl sched)) (exec loop_body s1));
              discriminate Hn.
          + injection Hn as -> Hn. f_equal. apply IH.
            cbn [round_nows]. exact Hn. }
      rewrite <- Hpre in Hq.
      destruct (rounds_before_keepalive n sched alive s Hq) as (H1 & _ & H3).
      now split.
    + now apply (rounds_first_keepalive n sched alive s early t).
  - intros n sched alive s Hnone.
    apply rounds_keepalive_paced. unfold keepalive_paced.
    rewrite Hnone. split; [exact I | now left].
Qed.


End LoopFacts.

Section StopKey.

Context {L : LibRaop} {C : Type} {RC : RaopClient.Ops C}.



End StopKey.

Section SpecConversions.

Import Sample.
Context {C : Type} {RC : RaopClient.Ops C}.



End SpecConversions.

(** ** Start-up *)

Section StartFacts.

Context {L : LibRaop} {C : Type} {RC : RaopClient.Ops C}.
Variable py_int : string -> option Z.

Lemma truthy_por start wait :
  truthy (por start wait) = true <-> start <> 0 \/ wait <> 0.
Proof.
  unfold por, truthy.
  destruct (Z.eqb_spec start 0), (Z.eqb_spec wait 0); cbn;
    repeat match goal with
      | |- context [?x =? 0] => destruct (Z.eqb_spec x 0)
      end; cbn; intuition (try discriminate; try lia).
Qed.

(** Lines 142-148 when a start or a wait was given. *)
Lemma delayed_start_schedules start wait latency (k : Conn C) :
  start <> 0 \/ wait <> 0 ->
  let now := clock (env k) (reads (env k)) in
  let ntp_latency := TS2NTP latency (RaopClient.sample_rate (client k)) in
  let scheduled := (if start =? 0 then now else start) + MS2NTP wait - ntp_latency in
  let in_time :=
    if now <? scheduled + ntp_latency
    then NTP2MS (scheduled - now + ntp_latency) else 0 in
  delayed_start start wait latency k
  = (Return tt,
     mkConn (RaopClient.start_at scheduled (client k))
       (mkEnv (clock (env k)) (S (reads (env k)))
          (trace (env k)
           ++ [ev_print (NowAudioStartsAt (SECNTP now) (SECNTP scheduled) in_time);
               ev_call (c_start_at scheduled)])
          (files (env k)) (writable (env k)))).
Proof.
  intros Hgiven. apply truthy_por in Hgiven.
  unfold delayed_start. rewrite Hgiven. run.
  unfold por, truthy. rewrite <- app_assoc.
  destruct (start =? 0); reflexivity.
Qed.

(** Without a start and without a wait nothing is scheduled. *)
Lemma delayed_start_skips latency (k : Conn C) :
  delayed_start 0 0 latency k = (Return tt, k).
Proof. reflexivity. Qed.

Lemma read_start_env a e :
  read_start py_int a e = (fst (read_start py_int a e), e).
Proof.
  unfold read_start, open_read, bind, ret, raise.
  destruct (given (args.start_file a)); [|reflexivity].
  destruct (files e s); [|reflexivity].
  destruct (py_int _); reflexivity.
Qed.

Lemma read_start_files a e e' :
  files e = files e' ->
  fst (read_start py_int a e) = fst (read_start py_int a e').
Proof.
  intros Hf. unfold read_start, open_read, bind, ret, raise.
  destruct (given (args.start_file a)); [|reflexivity].
  rewrite <- Hf. destruct (files e s); [|reflexivity].
  destruct (py_int _); reflexivity.
Qed.

Lemma prepare_ok a e start0 data :
  fst (read_start py_int a e) = Return start0 ->
  files e (args.filename a) = Some data ->
  prepare py_int a e
  = (Return (start0, data), logged [ev_call (c_create (client_args a))] e).
Proof.
  intros Hs Hf. unfold prepare, bind. cbn [emit].
  rewrite read_start_env.
  rewrite (read_start_files a _ e) by reflexivity. rewrite Hs.
  unfold open_read. cbn [files]. now rewrite Hf.
Qed.

Lemma connect_or_exit_ok a (k : Conn C) :
  fst (RaopClient.connect (args.port a) true (client k)) = true ->
  let c1 := snd (RaopClient.connect (args.port a) true (client k)) in
  connect_or_exit a k
  = (Return tt,
     mkConn c1
       (logged [ev_call (c_connect (args.port a) true);
                ev_print (ConnectedTo (args.server_ip a) (args.port a)
                  (TS2MS (RaopClient.latency c1) (RaopClient.sample_rate c1)))]
          (env k))).
Proof.
  intros Hc. unfold connect_or_exit, logged. run.
  destruct (RaopClient.connect (args.port a) true (client k)) as [ok c1].
  cbn in *. subst ok. cbn. now rewrite <- app_assoc.
Qed.

Lemma connect_or_exit_fails a (k : Conn C) :
  fst (RaopClient.connect (args.port a) true (client k)) = false ->
  let c1 := snd (RaopClient.connect (args.port a) true (client k)) in
  connect_or_exit a k
  = (SystemExit (Some 1),
     mkConn (RaopClient.destroy c1)
       (logged [ev_call (c_connect (args.port a) true); ev_call c_destroy;
                ev_print (CanNotConnect (args.server_ip a))]
          (env k))).
Proof.
  intros Hc. unfold connect_or_exit, logged. run.
  destruct (RaopClient.connect (args.port a) true (client k)) as [ok c1].
  cbn in *. subst ok. cbn. now rewrite <- !app_assoc.
Qed.

Lemma str_parses n : option_map Z.of_int (NilZero.int_of_string (str n)) = Some n.
Proof.
  unfold str. rewrite NilZero.isi.
  - cbn. now rewrite DecimalZ.of_to.
  - destruct n; cbn; intros [= H]; try discriminate H;
      now apply Unsigned.to_uint_nonnil in H.
  - destruct n; cbn; intros [= H]; try discriminate H;
      now apply Unsigned.to_uint_nonnil in H.
Qed.

(** C1: the scheduled start.  Whenever a start or a wait is given
    (either is not zero), lines 142-148 call start_at exactly once, with
    (start, or the clock value just read when start is zero) plus
    MS2NTP(wait) minus TS2NTP(latency, sample rate).  In the script the
    start comes from the command line or the start file and the latency
    is the one the client reports after connect: a run that connects
    passes that schedule to start_at and enters the loop. *)
Theorem scheduled_start :
  (forall start wait latency (k : Conn C),
     start <> 0 \/ wait <> 0 ->
     let now := clock (env k) (reads (env k)) in
     let scheduled :=
       (if start =? 0 then now else start) + MS2NTP wait
       - TS2NTP latency (RaopClient.sample_rate (client k)) in
     exists k' line,
       delayed_start start wait latency k = (Return tt, k')
       /\ client k' = RaopClient.start_at scheduled (client k)
       /\ trace (env k')
          = trace (env k) ++ [ev_print line; ev_call (c_start_at scheduled)])
  /\ (forall a e start0 data,
        fst (read_start py_int a e) = Return start0 ->
        files e (args.filename a) = Some data ->
        fst (RaopClient.connect (args.port a) true
               (RaopClient.create (client_args a))) = true ->
        start0 <> 0 \/ args.wait a <> 0 ->
        let c1 := snd (RaopClient.connect (args.port a) true
                         (RaopClient.create (client_args a))) in
        let now := clock e (reads e) in
        let scheduled :=
          (if start0 =? 0 then now else start0) + MS2NTP (args.wait a)
          - TS2NTP (RaopClient.latency c1) (RaopClient.sample_rate c1) in
        exists (s : State C) connected starts,
          open_session py_int a e = (Return s, env (conn s))
          /\ the_client s = RaopClient.start_at scheduled c1
          /\ the_trace s
             = trace e
               ++ [ev_call (c_create (client_args a));
                   ev_call (c_connect (args.port a) true);
                   ev_print connected; ev_print starts;
                   ev_call (c_start_at scheduled)]
          /\ latency s = RaopClient.latency c1
          /\ status s = PLAYING /\ frames s = 0 /\ last s = 0
          /\ start s = clock e (S (reads e))
          /\ last_keepalive s = start s
          /\ infile s = data).
Proof.
  split.
  - intros start wait latency k Hgiven now scheduled.
    rewrite (delayed_start_schedules start wait latency k Hgiven).
    do 2 eexists. repeat split.
  - intros a e start0 data Hs Hf Hc Hgiven c1 now scheduled.
    unfold open_session. rewrite (prepare_ok a e start0 data Hs Hf).
    unfold negotiate, bind.
    rewrite connect_or_exit_ok by exact Hc. cbn [get client].
    rewrite delayed_start_schedules by exact Hgiven.
    unfold logged. run.
    do 3 eexists.
    split; [apply injective_projections; cbn [fst snd]; reflexivity|].
    cbn. rewrite <- !app_assoc. repeat split.
Qed.


(** C9, as the code has it.  With an NTP file named that can be opened for
    writing, the script opens it, reads the clock, writes str of the clock
    value to the file, a decimal numeral that reads back as the same
    integer, and leaves through exit(): status 0, and nothing was asked of
    any client.  When the file cannot be opened for writing the open
    raises OSError: the script ends with status 1, the clock is not read
    and nothing is written.  When connect answers false the script
    destroys the client, prints that it cannot connect and leaves through
    exit(1), whatever the fuel: the loop is not entered. *)
Theorem early_exits :
  (forall fuel sched a e name,
     given (args.ntp_file a) = Some name ->
     writable e name = true ->
     let now := clock e (reads e) in
     let written := [ev_set_log_level (args.debug a); ev_write name (str now)] in
     exists e',
       main py_int fuel sched a e = Some (SystemExit None, e')
       /\ exit_status (@SystemExit unit None) = 0
       /\ trace e' = trace e ++ written
       /\ files e' name = Some (list_byte_of_string (str now))
       /\ option_map Z.of_int (NilZero.int_of_string (str now)) = Some now
       /\ (forall c, ~ In (ev_call c) written))
  /\ (forall fuel sched a e name,
        given (args.ntp_file a) = Some name ->
        writable e name = false ->
        main py_int fuel sched a e
        = Some (Raised OSError, logged [ev_set_log_level (args.debug a)] e)
        /\ exit_status (@Raised unit OSError) = 1)
  /\ (forall fuel sched a e start0 data,
        given (args.ntp_file a) = None ->
        fst (read_start py_int a e) = Return start0 ->
        files e (args.filename a) = Some data ->
        fst (RaopClient.connect (args.port a) true
               (RaopClient.create (client_args a))) = false ->
        let said :=
          [ev_set_log_level (args.debug a);
           ev_call (c_create (client_args a));
           ev_call (c_connect (args.port a) true);
           ev_call c_destroy;
           ev_print (CanNotConnect (args.server_ip a))] in
        main py_int fuel sched a e = Some (SystemExit (Some 1), logged said e)
        /\ exit_status (@SystemExit unit (Some 1)) = 1
        /\ (forall c, In (ev_call c) said ->
              c = c_create (client_args a)
              \/ c = c_connect (args.port a) true \/ c = c_destroy)).
Proof.
  split; [|split].
  - intros fuel sched a e name Hn Hw now written.
    unfold main, dump_ntp, bind. cbn [emit]. rewrite Hn.
    unfold open_write. cbn [writable]. rewrite Hw.
    unfold get_ntp, write_file, py_exit. cbn.
    eexists. split; [reflexivity|]. cbn.
    rewrite String.eqb_refl, <- app_assoc.
    repeat split; try apply str_parses.
    intros c [H | [H | []]]; discriminate H.
  - intros fuel sched a e name Hn Hw.
    unfold main, dump_ntp, bind. cbn [emit]. rewrite Hn.
    unfold open_write. cbn [writable]. rewrite Hw. now split.
  - intros fuel sched a e start0 data Hn Hs Hf Hc said.
    unfold main, dump_ntp, bind. cbn [emit]. rewrite Hn. cbn [ret].
    unfold open_session.
    rewrite (prepare_ok a _ start0 data).
    + unfold negotiate, bind.
      rewrite connect_or_exit_fails by exact Hc. cbn.
      unfold logged. cbn. rewrite <- !app_assoc. repeat split.
      intros c [H | [H | [H | [H | [H | []]]]]]; try discriminate H;
        injection H as <-; auto.
    + rewrite <- Hs. now apply read_start_files.
    + exact Hf.
Qed.

End StartFacts.

(** * The model at work

    The theorems applied to the sample instance, and a few runs. *)

Section Runs.

Import Sample.

(** 200 ms of audio, 8820 frames of 4 bytes, go out in 26 chunks; the
    loop is still running after 30 rounds, the input long exhausted. *)
Example two_hundred_ms :
  let s := snd (rounds 30 [] false (playing0 (silence 8820))) in
  frames s = 8820
  /\ List.length (sent_chunks (the_trace s)) = 26%nat
  /\ bytes_sent (the_trace s) = 8820 * 4
  /\ infile s = []
  /\ stream_loop 30 [] false (playing0 (silence 8820)) = None.
Proof. vm_compute. repeat split. Qed.

(** With accept_frames answering yes and no in turn, a chunk goes out
    every other round. *)
Example alternating_accept :
  let s0 :=
    mkState (mkConn (mkMock true true [true; false; true; false] 11025 44100) env0)
      PLAYING 11025 (2 ^ 40) 0 0 (2 ^ 40) (silence 2000) in
  let s := snd (rounds 4 [] false s0) in
  map (@List.length _) (sent_chunks (the_trace s)) = [1408; 1408]%nat
  /\ frames s = 704.
Proof. vm_compute. repeat split. Qed.

Lemma scheduled_start_witness :
  fst (read_start parse_int cmdline_wait env_song) = Return 0
  /\ files env_song (args.filename cmdline_wait) = Some (repeat Byte.x00 12)
  /\ (0 <> 0 \/ args.wait cmdline_wait <> 0)
  /\ exists s : State Mock,
       fst (open_session parse_int cmdline_wait env_song) = Return s
       /\ In (ev_call (c_start_at (2 ^ 40 + 2 ^ 30 - 2 ^ 32))) (the_trace s).
Proof.
  assert (Hwait : 0 <> 0 \/ args.wait cmdline_wait <> 0)
    by (right; discriminate).
  split; [reflexivity|]. split; [reflexivity|]. split; [exact Hwait|].
  destruct (proj2 (@scheduled_start macros Mock mock_ops parse_int)
              cmdline_wait env_song 0 (repeat Byte.x00 12)
              eq_refl eq_refl eq_refl Hwait)
    as (s & l1 & l2 & Hrun & _ & Htr & _).
  exists s. split; [now rewrite Hrun|].
  rewrite Htr. apply in_or_app. right. cbn. auto 6.
Defined.

Lemma chunks_sent_witness :
  0 < MAX_SAMPLES_PER_CHUNK
  /\ sends (playing0 (silence 500)) = true
  /\ frames (exec stream_data (playing0 (silence 500)))
     = frames (playing0 (silence 500))
       + Z.of_nat (List.length (next_chunk (playing0 (silence 500)))) / 4.
Proof.
  assert (Hmax : 0 < MAX_SAMPLES_PER_CHUNK) by reflexivity.
  split; [exact Hmax|]. split; [reflexivity|].
  destruct (@chunks_sent macros Mock mock_ops Hmax) as (_ & _ & Hstep & _).
  destruct (Hstep (playing0 (silence 500))) as [Hyes _].
  destruct (Hyes eq_refl) as (_ & _ & _ & _ & Hfr). exact Hfr.
Defined.

Lemma loop_exit_witness :
  leaves_after 3 keys_pause_stop true (playing0 (silence 1000))
  /\ stream_loop 5 keys_pause_stop true (playing0 (silence 1000))
     = Some (Return tt,
             snd (rounds 4 keys_pause_stop true (playing0 (silence 1000)))).
Proof.
  assert (Hl : leaves_after 3 keys_pause_stop true (playing0 (silence 1000))).
  { split; [reflexivity|].
    intros [|[|[|m]]] Hm; try reflexivity. lia. }
  split; [exact Hl|].
  destruct (@loop_exit macros Mock mock_ops) as (_ & _ & Hiff).
  apply Hiff. exists 3%nat. split; [lia|]. split; [exact Hl | reflexivity].
Defined.

(** Twelve rounds a quarter of a second apart: the status test succeeds in
    rounds 1, 6 and 11, and prints in the last two, once frames exceeds the
    latency. *)
Example status_every_fifth_round :
  status_stamps (the_trace (snd (rounds 12 [] false short_latency)))
  = [2 ^ 40 + 5 * 2 ^ 30; 2 ^ 40 + 10 * 2 ^ 30].
Proof. vm_compute. reflexivity. Qed.

Lemma status_line_pace_witness :
  0 <= MS2NTP 1000
  /\ status_stamps (the_trace short_latency) = []
  /\ spaced (MS2NTP 1000)
       (status_stamps (the_trace (snd (rounds 12 [] false short_latency)))).
Proof.
  assert (Hgap : 0 <= MS2NTP 1000) by discriminate.
  split; [exact Hgap|]. split; [reflexivity|].
  destruct (@status_line_pace macros Mock mock_ops Hgap) as (_ & _ & Hrun).
  apply (Hrun 12%nat [] false short_latency eq_refl).
Defined.

(** The boundary of the status test: exactly 1000 ms after the last
    status time (MS2NTP(1000) of shared time, which NTP2MS reads as 1000)
    the test of line 165 fails and last stays. *)
Lemma status_gate_boundary :
  MS2NTP 1000 <= next_ntp at_boundary - last at_boundary
  /\ 1000 <= NTP2MS (next_ntp at_boundary - last at_boundary)
  /\ last (exec (status_report (next_ntp at_boundary)) at_boundary)
     = last at_boundary
  /\ last (exec loop_body at_boundary) <> next_ntp at_boundary.
Proof. vm_compute. repeat split; discriminate. Qed.

Lemma keepalive_pace_witness :
  let c1 := 2 ^ 40 + 10 * 2 ^ 32 in
  let c2 := 2 ^ 40 + 20 * 2 ^ 32 in
  let c3 := 2 ^ 40 + 30 * 2 ^ 32 in
  let c6 := 2 ^ 40 + 60 * 2 ^ 32 in
  round_nows 4 [] false slow_session = [2 ^ 40; c1; c2] ++ [c3]
  /\ Forall (fun u => NTP2MS (u - last_keepalive slow_session) < 30000)
       [2 ^ 40; c1; c2]
  /\ 30000 <= NTP2MS (c3 - last_keepalive slow_session)
  /\ NTP2MS (c2 - last_keepalive slow_session) < 30000
  /\ exec (keepalive_monitor c2) slow_session = slow_session
  /\ last_keepalive (exec (keepalive_monitor c3) slow_session) = c3
  /\ keepalive_calls (the_trace (snd (rounds 3 [] false slow_session))) = []
  /\ keepalive_stamps (the_trace (snd (rounds 4 [] false slow_session)))
     = [c3]
  /\ keepalive_calls (the_trace (snd (rounds 4 [] false slow_session)))
     = [tt]
  /\ keepalive_stamps (the_trace slow_session) = []
  /\ keepalive_stamps (the_trace (snd (rounds 7 [] false slow_session)))
     = [c3; c6]
  /\ chained (fun t u => 30000 <= NTP2MS (u - t))
       (keepalive_stamps
          (the_trace (snd (rounds 7 [] false slow_session)))).
Proof.
  intros c1 c2 c3 c6.
  assert (Hnows : round_nows 4 [] false slow_session
                  = [2 ^ 40; c1; c2] ++ [c3])
    by (vm_compute; reflexivity).
  assert (Hearly : Forall
            (fun u => NTP2MS (u - last_keepalive slow_session) < 30000)
            [2 ^ 40; c1; c2])
    by (repeat constructor).
  assert (Hdue : 30000 <= NTP2MS (c3 - last_keepalive slow_session))
    by discriminate.
  assert (Hnot : NTP2MS (c2 - last_keepalive slow_session) < 30000)
    by reflexivity.
  destruct (@keepalive_pace macros Mock mock_ops)
    as (Hone & _ & Hfirst & Hrun).
  destruct (Hone c2 slow_session) as (_ & _ & Hidle).
  destruct (Hone c3 slow_session) as (_ & Hfire & _).
  destruct (Hfire Hdue) as (_ & Hlast & _).
  destruct (Hfirst 3%nat [] false slow_session _ _ Hnows Hearly Hdue)
    as ((_ & Hcalls3) & _ & Hstamps4 & Hcalls4).
  split; [exact Hnows|]. split; [exact Hearly|]. split; [exact Hdue|].
  split; [exact Hnot|]. split; [exact (Hidle Hnot)|].
  split; [exact Hlast|]. split; [exact Hcalls3|].
  split; [exact Hstamps4|]. split; [exact Hcalls4|].
  split; [reflexivity|]. split; [vm_compute; reflexivity|].
  apply (Hrun 7%nat [] false slow_session eq_refl).
Defined.

Lemma pause_key_witness :
  status (playing0 []) = PLAYING
  /\ exists s',
       handle_key_event "p" (playing0 []) = (Return tt, s')
       /\ status s' = PAUSED
       /\ the_trace s'
          = [ev_call c_pause; ev_call c_flush;
             ev_print (PauseAt (SECNTP (2 ^ 40)))].
Proof.
  split; [reflexivity|].
  destruct (proj1 (@pause_key macros Mock mock_ops (playing0 [])) eq_refl)
    as (s' & Hrun & Hst & _ & Htr & _).
  exists s'. repeat split; assumption.
Defined.

Lemma restart_key_witness :
  exists s',
    handle_key_event "r" (with_status STOPPED (playing0 [])) = (Return tt, s')
    /\ status s' = PLAYING.
Proof.
  destruct (@restart_key macros Mock mock_ops (with_status STOPPED (playing0 [])))
    as (s' & Hrun & Hst & _).
  exists s'. split; assumption.
Defined.



(** A receiver that cannot be reached: the script leaves with status 1
    before the loop, here with no fuel at all. *)
Example no_receiver :
  option_map (fun r => exit_status (fst r))
    (@main macros Mock unreachable_ops parse_int 0 [] cmdline_wait env_song)
  = Some 1.
Proof. vm_compute. reflexivity. Qed.

Lemma early_exits_witness :
  given (args.ntp_file cmdline_ntp) = Some "ntp.txt"%string
  /\ writable env0 "ntp.txt" = true
  /\ writable env_locked "ntp.txt" = false
  /\ given (args.ntp_file cmdline_wait) = None
  /\ fst (read_start parse_int cmdline_wait env_song) = Return 0
  /\ files env_song (args.filename cmdline_wait) = Some (repeat Byte.x00 12)
  /\ fst (@RaopClient.connect Mock unreachable_ops (args.port cmdline_wait)
            true
            (@RaopClient.create Mock unreachable_ops
               (client_args cmdline_wait))) = false
  /\ (exists e',
        main (C := Mock) parse_int 0 [] cmdline_ntp env0
        = Some (SystemExit None, e')
        /\ files e' "ntp.txt" = Some (list_byte_of_string "1099511627776"))
  /\ (exists e',
        main (C := Mock) parse_int 0 [] cmdline_ntp env_locked
        = Some (Raised OSError, e')
        /\ files e' "ntp.txt" = None)
  /\ (exists e',
        @main macros Mock unreachable_ops parse_int 0 [] cmdline_wait
          env_song
        = Some (SystemExit (Some 1), e')).
Proof.
  split; [reflexivity|]. split; [reflexivity|]. split; [reflexivity|].
  split; [reflexivity|]. split; [reflexivity|]. split; [reflexivity|].
  split; [reflexivity|].
  destruct (@early_exits macros Mock mock_ops parse_int)
    as (Hdump & Hlocked & _).
  destruct (@early_exits macros Mock unreachable_ops parse_int)
    as (_ & _ & Hcold).
  split; [|split].
  - destruct (Hdump 0%nat [] cmdline_ntp env0 "ntp.txt"%string
                eq_refl eq_refl)
      as (e' & Hrun & _ & _ & Hfile & _).
    exists e'. split; assumption.
  - destruct (Hlocked 0%nat [] cmdline_ntp env_locked "ntp.txt"%string
                eq_refl eq_refl) as (Hrun & _).
    eexists. split; [exact Hrun|]. reflexivity.
  - destruct (Hcold 0%nat [] cmdline_wait env_song 0
                (repeat Byte.x00 12) eq_refl eq_refl eq_refl eq_refl)
      as (Hrun & _).
    eexists. exact Hrun.
Defined.

(** NTP-dump mode with a file that cannot be opened for writing: the
    script ends on the OSError of line 110, with status 1, and leaves no
    file; the clock has not been read and nothing was written. *)
Lemma dump_unwritable :
  given (args.ntp_file cmdline_ntp) = Some "ntp.txt"%string
  /\ writable env_locked "ntp.txt" = false
  /\ option_map
       (fun r => (fst r, exit_status (fst r), files (snd r) "ntp.txt",
                  reads (snd r), trace (snd r)))
       (main (C := Mock) parse_int 0 [] cmdline_ntp env_locked)
     = Some (Raised OSError, 1, None, 0%nat,
             [ev_set_log_level (args.debug cmdline_ntp)])
  /\ main (C := Mock) parse_int 0 [] cmdline_ntp env_locked
     <> Some (SystemExit None, snd (dump_ntp cmdline_ntp env_locked)).
Proof.
  split; [reflexivity|]. split; [reflexivity|].
  split; [vm_compute; reflexivity|].
  intros H.
  apply (f_equal (option_map (fun r => exit_status (fst r)))) in H.
  vm_compute in H. discriminate H.
Qed.



End Runs.

(** * Further properties of the script *)

(** Finds what a step added to the trace. *)
Ltac delta :=
  rewrite <- ?app_assoc; cbn [app];
  first [ exists []; split; [symmetry; apply app_nil_r|]
        | eexists; split; [reflexivity|] ].

Section KeysToo.

Context {L : LibRaop} {C : Type} {RC : RaopClient.Ops C}.

Lemma other_key_returns key (s : State C) :
  stop_key_b key = false -> fst (handle_key_event key s) = Return tt.
Proof.
  unfold stop_key_b, handle_key_event. intros Hk. run. rewrite Hk.
  branches; reflexivity.
Qed.

Lemma stopping_key_exits key (s : State C) :
  stop_key_b key = true ->
  fst (handle_key_event key s) = SystemExit (Some 0)
  /\ status (exec (handle_key_event key) s) = STOPPED.
Proof.
  unfold stop_key_b, handle_key_event. intros Hk. run. rewrite Hk.
  now split.
Qed.

Lemma handle_key_event_adds key (s : State C) :
  exists evs,
    the_trace (exec (handle_key_event key) s) = the_trace s ++ evs
    /\ Forall key_event evs.
Proof.
  unfold handle_key_event. run. branches; delta; repeat constructor.
Qed.

(** X1: a key other than s, q, p and r does nothing: no call, no line, no
    clock reading, the state is the same. *)
Theorem unknown_key_ignored (key : string) (s : State C) :
  key <> "s"%string -> key <> "q"%string ->
  key <> "p"%string -> key <> "r"%string ->
  handle_key_event key s = (Return tt, s).
Proof.
  intros Hs Hq Hp Hr. unfold handle_key_event. run.
  apply String.eqb_neq in Hs, Hq, Hp, Hr. now rewrite Hs, Hq, Hp, Hr.
Qed.

(** X2: pausing twice is pausing once: whatever the state, a second p
    right after a p changes nothing and calls nothing. *)
Theorem pause_twice (s : State C) :
  handle_key_event "p" (exec (handle_key_event "p") s)
  = (Return tt, exec (handle_key_event "p") s).
Proof.
  unfold handle_key_event. run.
  destruct (status s) eqn:Hs; cbn; rewrite ?Hs; reflexivity.
Qed.

Lemma listen_adds keys : forall s : State C,
  exists evs,
    the_trace (snd (listen keys s)) = the_trace s ++ evs
    /\ Forall key_event evs.
Proof.
  induction keys as [|key keys IH]; intros s; cbn [listen snd].
  - exists []. split; [symmetry; apply app_nil_r | constructor].
  - destruct (handle_key_event_adds key s) as (evs1 & Ht1 & Hk1).
    unfold exec in Ht1.
    destruct (handle_key_event key s) as [[[] | code | e] s1];
      cbn [fst snd] in *; try (exists evs1; now split).
    destruct (IH s1) as (evs2 & Ht2 & Hk2).
    exists (evs1 ++ evs2). split.
    + now rewrite Ht2, Ht1, app_assoc.
    + apply Forall_app. now split.
Qed.

(** X3: the footprint of the keys.  Whatever keys the listener handles, it
    adds to the trace only stop, flush, pause and start_at calls and its
    own three lines, and it leaves the variables of the loop (latency,
    start, last, frames, last_keepalive, the input file) as they are: in
    particular no key rewinds the input or resets the frame count. *)
Theorem keys_footprint (keys : list string) (s : State C) :
  exists evs,
    the_trace (snd (listen keys s)) = the_trace s ++ evs
    /\ Forall key_event evs
    /\ same_cursor s (snd (listen keys s)).
Proof.
  destruct (listen_quiet keys s) as [Hc _].
  destruct (listen_adds keys s) as (evs & H1 & H2).
  exists evs. auto.
Qed.

(** X4: the listener runs until the first s or q.  Keys without s and q
    leave the thread running; with an s or q among them, the keys before it
    are handled, then that key, which leaves the state STOPPED and ends the
    thread, and the keys after it are never handled. *)
Theorem listen_until_stop :
  (forall keys (s : State C),
     forallb (fun k => negb (stop_key_b k)) keys = true ->
     fst (listen keys s) = true)
  /\ (forall before key after (s : State C),
        forallb (fun k => negb (stop_key_b k)) before = true ->
        stop_key_b key = true ->
        listen (before ++ key :: after) s
        = (false, exec (handle_key_event key) (snd (listen before s)))
        /\ status (snd (listen (before ++ key :: after) s)) = STOPPED).
Proof.
  split.
  - induction keys as [|key keys IH]; intros s Hk; [reflexivity|].
    cbn [forallb] in Hk. apply andb_prop in Hk. destruct Hk as [Hk Hks].
    apply negb_true_iff in Hk.
    pose proof (other_key_returns key s Hk) as Hr. cbn [listen].
    destruct (handle_key_event key s) as [[[] | code | e] s1];
      cbn [fst] in Hr; try discriminate Hr. now apply IH.
  - induction before as [|k before IH]; intros key after s Hb Hk.
    + cbn [app listen snd].
      destruct (stopping_key_exits key s Hk) as [Hx Hst]. unfold exec in *.
      destruct (handle_key_event key s) as [[[] | code | e] s1];
        cbn [fst snd] in *; try discriminate Hx. now split.
    + cbn [forallb] in Hb. apply andb_prop in Hb. destruct Hb as [Hk1 Hb].
      apply negb_true_iff in Hk1.
      pose proof (other_key_returns k s Hk1) as Hr. cbn [app listen].
      destruct (handle_key_event k s) as [[[] | code | e] s1];
        cbn [fst] in Hr; try discriminate Hr. now apply IH.
Qed.

(** X5: keys count only in interactive mode.  Without the listener the
    loop and the whole script run the same whatever keys are pressed. *)
Theorem keys_need_interactive (py_int : string -> option Z) :
  (forall fuel sched (s : State C),
     stream_loop fuel sched false s = stream_loop fuel [] false s)
  /\ (forall fuel sched a e,
        args.interactive a = false ->
        main (C := C) py_int fuel sched a e = main py_int fuel [] a e).
Proof.
  assert (Hloop : forall fuel sched (s : State C),
             stream_loop fuel sched false s = stream_loop fuel [] false s).
  { induction fuel as [|fuel IH]; intros sched s; [reflexivity|].
    cbn [stream_loop listener hd tl].
    destruct (loop_body s) as [[[|] | code | e] s2]; try reflexivity.
    apply IH. }
  split; [exact Hloop|].
  intros fuel sched a e Hi. unfold main.
  destruct (dump_ntp a e) as [[[] | code | x] e1]; try reflexivity.
  destruct (open_session py_int a e1) as [[s | code | x] e2]; try reflexivity.
  now rewrite Hi, Hloop.
Qed.

(** X6: pause, then restart.  From PLAYING, the keys p and r leave the
    player PLAYING with the listener running; the client saw pause, flush
    and one start_at, scheduled from the clock value read for the restart
    and the latency the client reports after the pause; the input file and
    the frame count are where they were: the restart does not rewind. *)
Theorem pause_then_restart (s : State C) :
  status s = PLAYING ->
  let c := RaopClient.flush (RaopClient.pause (the_client s)) in
  let t := clock (env (conn s)) in
  let n := the_reads s in
  let start_at :=
    t (S n) + MS2NTP 200
    - TS2NTP (RaopClient.latency c) (RaopClient.sample_rate c) in
  fst (listen ["p"; "r"]%string s) = true
  /\ status (snd (listen ["p"; "r"]%string s)) = PLAYING
  /\ the_client (snd (listen ["p"; "r"]%string s))
     = RaopClient.start_at start_at c
  /\ the_trace (snd (listen ["p"; "r"]%string s))
     = the_trace s
       ++ [ev_call c_pause; ev_call c_flush; ev_print (PauseAt (SECNTP (t n)));
           ev_call (c_start_at start_at);
           ev_print (RestartedAt (SECNTP (t (S (S n)))))]
  /\ infile (snd (listen ["p"; "r"]%string s)) = infile s
  /\ frames (snd (listen ["p"; "r"]%string s)) = frames s.
Proof.
  intros Hs. cbn [listen]. unfold handle_key_event. run. rewrite Hs. cbn.
  rewrite <- !app_assoc. repeat split.
Qed.

End KeysToo.

Section LoopToo.

Context {L : LibRaop} {C : Type} {RC : RaopClient.Ops C}.

Lemma file_read_app n rest :
  fst (file_read n rest) ++ snd (file_read n rest) = rest.
Proof.
  unfold file_read. destruct (n <? 0); cbn [fst snd];
    [apply app_nil_r | apply firstn_skipn].
Qed.

Lemma file_read_length n rest :
  0 < n ->
  Z.of_nat (List.length (fst (file_read n rest)))
  = Z.min n (Z.of_nat (List.length rest)).
Proof.
  intros Hn. unfold file_read.
  destruct (Z.ltb_spec n 0) as [Hlt | _]; [lia|]. cbn [fst].
  rewrite length_firstn. lia.
Qed.

(** What line 179-181 sends, as a list of no or one chunk. *)
Lemma stream_data_sent (s : State C) :
  exists sent,
    sent_chunks (the_trace (exec stream_data s))
    = sent_chunks (the_trace s) ++ sent
    /\ List.concat sent ++ infile (exec stream_data s) = infile s
    /\ frames (exec stream_data s)
       = frames s + zsum (map (fun d => Z.of_nat (List.length d) / 4) sent).
Proof.
  pose proof (file_read_app (MAX_SAMPLES_PER_CHUNK * 4) (infile s)) as Happ.
  unfold stream_data. run.
  destruct (Status_eqb (status s) PLAYING); cbn;
    [|exists []; rewrite app_nil_r; cbn; repeat split; lia].
  destruct (RaopClient.accept_frames (client (conn s))) as [[|] c1]; cbn;
    [|exists []; traces; cbn; repeat split; lia].
  destruct (file_read (MAX_SAMPLES_PER_CHUNK * 4) (infile s)) as [data rest].
  cbn [fst snd] in Happ.
  destruct data as [|b data]; cbn [nonempty].
  - exists []. traces. cbn in *. repeat split; [assumption | lia].
  - cbn. destruct (RaopClient.send_chunk (b :: data) c1) as [r c2]. cbn.
    exists [b :: data]. traces. cbn.
    repeat split; [assumption | lia].
Qed.

(** The same for a whole round, keys included. *)
Lemma round_sent keys alive (s : State C) :
  exists sent,
    sent_chunks (the_trace (snd (round keys alive s)))
    = sent_chunks (the_trace s) ++ sent
    /\ List.concat sent ++ infile (snd (round keys alive s)) = infile s
    /\ frames (snd (round keys alive s))
       = frames s + zsum (map (fun d => Z.of_nat (List.length d) / 4) sent).
Proof.
  unfold round.
  destruct (listener_quiet alive keys s)
    as [(_ & _ & _ & Hfr & _ & Hin) (Hsent & _)].
  destruct (listener alive keys s) as [alive' s1]. cbn [snd] in *.
  rewrite loop_body_exec.
  destruct (poll_clock_no_data s1) as (_ & Hf & Hi & Hs).
  destruct (stream_data_sent (exec poll_clock s1)) as (sent & H1 & H2 & H3).
  exists sent. rewrite H1, H3, Hs, Hsent, Hf, Hfr. rewrite Hi, Hin in H2.
  auto.
Qed.

Lemma rounds_sent n : forall sched alive (s : State C),
  exists sent,
    sent_chunks (the_trace (snd (rounds n sched alive s)))
    = sent_chunks (the_trace s) ++ sent
    /\ List.concat sent ++ infile (snd (rounds n sched alive s)) = infile s
    /\ frames (snd (rounds n sched alive s))
       = frames s + zsum (map (fun d => Z.of_nat (List.length d) / 4) sent).
Proof.
  induction n as [|n IH]; intros sched alive s.
  - exists []. cbn. rewrite app_nil_r. repeat split. lia.
  - rewrite rounds_step.
    destruct (round_sent (hd [] sched) alive s) as (sent1 & H1 & H2 & H3).
    destruct (IH (tl sched) (fst (round (hd [] sched) alive s))
                (snd (round (hd [] sched) alive s)))
      as (sent2 & K1 & K2 & K3).
    exists (sent1 ++ sent2). rewrite K1, H1, K3, H3. split; [|split].
    + now rewrite app_assoc.
    + now rewrite List.concat_app, <- app_assoc, K2.
    + rewrite map_app, zsum_app. lia.
Qed.

(** X7: nothing is lost and nothing is sent twice.  Over any number of
    rounds, with any keys in between and whatever the client answers, the
    chunks sent since the start, one after the other, followed by what is
    left of the input, are the input as it was. *)
Theorem input_conserved n sched alive (s : State C) :
  exists sent,
    sent_chunks (the_trace (snd (rounds n sched alive s)))
    = sent_chunks (the_trace s) ++ sent
    /\ List.concat sent ++ infile (snd (rounds n sched alive s)) = infile s.
Proof.
  destruct (rounds_sent n sched alive s) as (sent & H1 & H2 & _).
  exists sent. now split.
Qed.

Lemma frames_of_chunks sent :
  0 <= zsum (map (fun d => Z.of_nat (List.length d) / 4) sent)
  /\ 4 * zsum (map (fun d => Z.of_nat (List.length d) / 4) sent)
     <= zsum (map (fun d : list Byte.byte => Z.of_nat (List.length d)) sent).
Proof.
  induction sent as [|d sent [IH1 IH2]]; cbn [map zsum fold_right]; [lia|].
  fold (zsum (map (fun d => Z.of_nat (List.length d) / 4) sent)).
  fold (zsum (map (fun d : list Byte.byte => Z.of_nat (List.length d)) sent)).
  pose proof (Z.mul_div_le (Z.of_nat (List.length d)) 4 ltac:(lia)).
  pose proof (Z.div_pos (Z.of_nat (List.length d)) 4 ltac:(lia) ltac:(lia)).
  lia.
Qed.

(** X8: the frame count never runs ahead.  Over any run frames does not
    decrease, and four times its growth is at most the number of bytes
    sent meanwhile: a frame is counted only for four bytes handed to the
    client. *)
Theorem frames_never_ahead n sched alive (s : State C) :
  let s' := snd (rounds n sched alive s) in
  frames s <= frames s'
  /\ 4 * (frames s' - frames s)
     <= bytes_sent (the_trace s') - bytes_sent (the_trace s).
Proof.
  cbn zeta. destruct (rounds_sent n sched alive s) as (sent & H1 & _ & H3).
  unfold bytes_sent. rewrite H1, H3, map_app, zsum_app.
  destruct (frames_of_chunks sent). lia.
Qed.

Lemma next_chunk_length (s : State C) :
  0 < MAX_SAMPLES_PER_CHUNK ->
  Z.of_nat (List.length (next_chunk s))
  = Z.min (MAX_SAMPLES_PER_CHUNK * 4) (Z.of_nat (List.length (infile s))).
Proof. intros H. unfold next_chunk. apply file_read_length. lia. Qed.

Lemma stream_data_whole (s : State C) :
  0 < MAX_SAMPLES_PER_CHUNK ->
  (4 | Z.of_nat (List.length (infile s))) ->
  (4 | Z.of_nat (List.length (infile (exec stream_data s))))
  /\ 4 * (frames (exec stream_data s) - frames s)
     = bytes_sent (the_trace (exec stream_data s)) - bytes_sent (the_trace s).
Proof.
  intros Hmax [q Hq].
  destruct (stream_data_effect s Hmax) as [Hyes Hno].
  destruct (sends s).
  - destruct (Hyes eq_refl) as (_ & _ & Happ & Htr & Hfr).
    pose proof (next_chunk_length s Hmax) as Hlen.
    apply (f_equal (@List.length _)) in Happ. rewrite length_app in Happ.
    rewrite Htr, Hfr, bytes_sent_app.
    assert (Hk : exists k, Z.of_nat (List.length (next_chunk s)) = k * 4).
    { destruct (Z.min_spec (MAX_SAMPLES_PER_CHUNK * 4)
                  (Z.of_nat (List.length (infile s)))) as [[_ Hm] | [_ Hm]];
        [exists MAX_SAMPLES_PER_CHUNK | exists q]; lia. }
    destruct Hk as [k Hk]. split.
    + exists (q - k). lia.
    + replace (bytes_sent [ev_call c_accept_frames;
                           ev_call (c_send_chunk (next_chunk s))])
        with (Z.of_nat (List.length (next_chunk s)) + 0) by reflexivity.
      rewrite Hk, Z.div_mul by lia. lia.
  - destruct (Hno eq_refl) as (Hsent & Hfr & Hin).
    unfold bytes_sent. rewrite Hsent, Hfr, Hin. split; [now exists q | lia].
Qed.

(** X9: whole frames stay whole.  With a positive chunk size and an input
    whose length is a multiple of 4, after any run what is left of the
    input is again a multiple of 4 bytes long and the frames counted are
    exactly a quarter of the bytes sent: no frame is ever split between
    two chunks. *)
Theorem whole_frames n :
  forall sched alive (s : State C),
    0 < MAX_SAMPLES_PER_CHUNK ->
    (4 | Z.of_nat (List.length (infile s))) ->
    (4 | Z.of_nat (List.length (infile (snd (rounds n sched alive s)))))
    /\ 4 * (frames (snd (rounds n sched alive s)) - frames s)
       = bytes_sent (the_trace (snd (rounds n sched alive s)))
         - bytes_sent (the_trace s).
Proof.
  induction n as [|n IH]; intros sched alive s Hmax Hdiv.
  - cbn [rounds snd]. split; [assumption | lia].
  - rewrite rounds_step.
    assert (Hround :
      (4 | Z.of_nat (List.length (infile (snd (round (hd [] sched) alive s)))))
      /\ 4 * (frames (snd (round (hd [] sched) alive s)) - frames s)
         = bytes_sent (the_trace (snd (round (hd [] sched) alive s)))
           - bytes_sent (the_trace s)).
    { unfold round.
      destruct (listener_quiet alive (hd [] sched) s)
        as [(_ & _ & _ & Hfr & _ & Hin) (Hsent & _)].
      destruct (listener alive (hd [] sched) s) as [alive' s1].
      cbn [snd] in *. rewrite loop_body_exec.
      destruct (poll_clock_no_data s1) as (_ & Hf & Hi & Hs).
      destruct (stream_data_whole (exec poll_clock s1) Hmax) as [H1 H2];
        [now rewrite Hi, Hin|].
      assert (Hb : bytes_sent (the_trace (exec poll_clock s1))
                   = bytes_sent (the_trace s))
        by (unfold bytes_sent; now rewrite Hs, Hsent).
      split; [exact H1 | lia]. }
    destruct Hround as [Hd Hf].
    destruct (IH (tl sched) (fst (round (hd [] sched) alive s))
                (snd (round (hd [] sched) alive s)) Hmax Hd) as [H1 H2].
    split; [exact H1 | lia].
Qed.

(** X10: a short chunk is the last one.  With a positive chunk size, when
    line 179 sends fewer than MAX_SAMPLES_PER_CHUNK*4 bytes the input is
    exhausted by it. *)
Theorem short_chunk_is_last (s : State C) :
  0 < MAX_SAMPLES_PER_CHUNK ->
  sends s = true ->
  Z.of_nat (List.length (next_chunk s)) < MAX_SAMPLES_PER_CHUNK * 4 ->
  infile (exec stream_data s) = [].
Proof.
  intros Hmax Hs Hshort.
  destruct (stream_data_effect s Hmax) as [Hyes _].
  destruct (Hyes Hs) as (_ & _ & Happ & _).
  pose proof (next_chunk_length s Hmax) as Hlen.
  apply (f_equal (@List.length _)) in Happ. rewrite length_app in Happ.
  apply length_zero_iff_nil. lia.
Qed.

Lemma stream_data_at_end (s : State C) :
  infile s = [] ->
  infile (exec stream_data s) = []
  /\ sent_chunks (the_trace (exec stream_data s)) = sent_chunks (the_trace s)
  /\ frames (exec stream_data s) = frames s.
Proof.
  intros He. destruct (stream_data_idle s (or_intror He)) as [H1 H2].
  destruct (stream_data_sent s) as (sent & _ & Hc & _).
  rewrite He in Hc. apply app_eq_nil in Hc. now destruct Hc.
Qed.

(** X11: the end of the input is final.  Once the input is exhausted no
    round sends anything and the frame count stands still, whatever keys
    are pressed: pause, restart and all. *)
Theorem exhausted_stays n :
  forall sched alive (s : State C),
    infile s = [] ->
    infile (snd (rounds n sched alive s)) = []
    /\ sent_chunks (the_trace (snd (rounds n sched alive s)))
       = sent_chunks (the_trace s)
    /\ frames (snd (rounds n sched alive s)) = frames s.
Proof.
  induction n as [|n IH]; intros sched alive s He; [now repeat split|].
  rewrite rounds_step.
  assert (Hround :
    infile (snd (round (hd [] sched) alive s)) = []
    /\ sent_chunks (the_trace (snd (round (hd [] sched) alive s)))
       = sent_chunks (the_trace s)
    /\ frames (snd (round (hd [] sched) alive s)) = frames s).
  { unfold round.
    destruct (listener_quiet alive (hd [] sched) s)
      as [(_ & _ & _ & Hfr & _ & Hin) (Hsent & _)].
    destruct (listener alive (hd [] sched) s) as [alive' s1].
    cbn [snd] in *. rewrite loop_body_exec.
    destruct (poll_clock_no_data s1) as (_ & Hf & Hi & Hs).
    destruct (stream_data_at_end (exec poll_clock s1)) as (H1 & H2 & H3);
      [now rewrite Hi, Hin|].
    rewrite H1, H2, H3, Hs, Hsent, Hf, Hfr. auto. }
  destruct Hround as (H1 & H2 & H3).
  destruct (IH (tl sched) (fst (round (hd [] sched) alive s))
              (snd (round (hd [] sched) alive s)) H1) as (K1 & K2 & K3).
  rewrite K1, K2, K3, H2, H3. auto.
Qed.

Ltac polls :=
  cbn; unfold accept_polls, pick; rewrite ?flat_map_app; cbn;
  rewrite ?app_nil_r.

(** X12: accept_frames is asked once per round while PLAYING and not at
    all otherwise: a paused or stopped player does not poll the client for
    room. *)
Theorem accept_polled_while_playing (s : State C) :
  accept_polls (the_trace (exec loop_body s))
  = accept_polls (the_trace s)
    ++ (if Status_eqb (status s) PLAYING then [tt] else []).
Proof.
  unfold loop_body, poll_clock, status_report, keepalive_monitor,
    stream_data.
  run. branches; polls; reflexivity.
Qed.

Lemma loop_body_adds (s : State C) :
  exists evs,
    the_trace (exec loop_body s) = the_trace s ++ evs
    /\ Forall loop_event evs.
Proof.
  unfold loop_body, poll_clock, status_report, keepalive_monitor,
    stream_data.
  run. branches; delta; repeat constructor.
Qed.

Lemma loop_body_keeps (s : State C) :
  status (exec loop_body s) = status s
  /\ latency (exec loop_body s) = latency s
  /\ start (exec loop_body s) = start s
  /\ clock (env (conn (exec loop_body s))) = clock (env (conn s))
  /\ files (env (conn (exec loop_body s))) = files (env (conn s)).
Proof.
  unfold loop_body, poll_clock, status_report, keepalive_monitor,
    stream_data.
  run. branches; repeat split.
Qed.

(** X13: the footprint of the loop.  A round of the loop body adds to the
    trace only accept_frames, send_chunk and keepalive calls and its two
    kinds of line; it never calls pause, stop, flush, start_at, connect,
    disconnect or destroy, writes no file, and leaves the playback state,
    the latency and the start time as they are.  The same holds of any run
    without listener. *)
Theorem loop_footprint :
  (forall s : State C,
     exists evs,
       the_trace (exec loop_body s) = the_trace s ++ evs
       /\ Forall loop_event evs
       /\ status (exec loop_body s) = status s
       /\ latency (exec loop_body s) = latency s
       /\ start (exec loop_body s) = start s
       /\ files (env (conn (exec loop_body s))) = files (env (conn s)))
  /\ (forall n sched (s : State C),
        exists evs,
          the_trace (snd (rounds n sched false s)) = the_trace s ++ evs
          /\ Forall loop_event evs
          /\ status (snd (rounds n sched false s)) = status s).
Proof.
  split.
  - intros s. destruct (loop_body_adds s) as (evs & H1 & H2).
    destruct (loop_body_keeps s) as (K1 & K2 & K3 & _ & K5).
    exists evs. auto 7.
  - induction n as [|n IH]; intros sched s.
    + exists []. cbn. rewrite app_nil_r. auto.
    + rewrite rounds_step. unfold round. cbn [listener fst snd].
      destruct (loop_body_adds s) as (evs1 & H1 & H2).
      destruct (loop_body_keeps s) as (K1 & _).
      destruct (IH (tl sched) (exec loop_body s)) as (evs2 & J1 & J2 & J3).
      exists (evs1 ++ evs2). rewrite J1, H1, J3, K1, app_assoc.
      split; [reflexivity|]. split; [|reflexivity].
      apply Forall_app. now split.
Qed.

Lemma loop_body_halted (s : State C) :
  status s = PAUSED \/ status s = STOPPED ->
  status (exec loop_body s) = status s
  /\ sent_chunks (the_trace (exec loop_body s)) = sent_chunks (the_trace s)
  /\ accept_polls (the_trace (exec loop_body s)) = accept_polls (the_trace s)
  /\ frames (exec loop_body s) = frames s
  /\ infile (exec loop_body s) = infile s
  /\ the_client (exec loop_body s)
     = (if 30000 <=? NTP2MS (next_ntp s - last_keepalive s)
        then RaopClient.keepalive (the_client s) else the_client s).
Proof.
  intros Hs.
  unfold loop_body, poll_clock, status_report, keepalive_monitor,
    stream_data.
  run. destruct Hs as [Hs | Hs]; rewrite Hs; cbn;
    branches; traces; polls; repeat split.
Qed.

(** X14: a halted player stays halted.  With no listener left (after s or
    q, or without the interactive flag) and the state PAUSED or STOPPED,
    every later round leaves the state as it is, sends nothing, does not
    ask accept_frames, and leaves the input and the frame count alone;
    only the clock tests go on. *)
Theorem halted_stays n :
  forall sched (s : State C),
    status s = PAUSED \/ status s = STOPPED ->
    status (snd (rounds n sched false s)) = status s
    /\ sent_chunks (the_trace (snd (rounds n sched false s)))
       = sent_chunks (the_trace s)
    /\ accept_polls (the_trace (snd (rounds n sched false s)))
       = accept_polls (the_trace s)
    /\ frames (snd (rounds n sched false s)) = frames s
    /\ infile (snd (rounds n sched false s)) = infile s.
Proof.
  induction n as [|n IH]; intros sched s Hs; [now repeat split|].
  rewrite rounds_step. unfold round. cbn [listener fst snd].
  destruct (loop_body_halted s Hs) as (H1 & H2 & H3 & H4 & H5 & _).
  destruct (IH (tl sched) (exec loop_body s)) as (K1 & K2 & K3 & K4 & K5);
    [now rewrite H1|].
  rewrite K1, K2, K3, K4, K5, H1, H2, H3, H4, H5. auto.
Qed.

(** X15: every keepalive has its line.  Over any run the keepalive calls
    added to the trace are as many as the keepalive lines added, one for
    one. *)
Theorem keepalive_calls_have_lines n :
  forall sched alive (s : State C),
    exists stamps,
      keepalive_stamps (the_trace (snd (rounds n sched alive s)))
      = keepalive_stamps (the_trace s) ++ stamps
      /\ keepalive_calls (the_trace (snd (rounds n sched alive s)))
         = keepalive_calls (the_trace s) ++ map (fun _ => tt) stamps.
Proof.
  induction n as [|n IH]; intros sched alive s.
  - exists []. cbn. now rewrite !app_nil_r.
  - rewrite rounds_step.
    destruct (round_keepalive (hd [] sched) alive s) as (_ & H1 & H2).
    destruct (IH (tl sched) (fst (round (hd [] sched) alive s))
                (snd (round (hd [] sched) alive s))) as (st & K1 & K2).
    rewrite K1, K2, H1, H2.
    destruct (30000 <=? _).
    + exists (next_ntp (snd (listener alive (hd [] sched) s)) :: st).
      now rewrite <- !app_assoc.
    + exists st. now rewrite !app_nil_r.
Qed.

End LoopToo.

Section StartToo.

Context {L : LibRaop} {C : Type} {RC : RaopClient.Ops C}.
Variable py_int : string -> option Z.

(** X16: the latency asked of the client.  A latency given on the command
    line is used when it is not negative, zero included; a negative one,
    like none at all, gives MS2TS(1000, 44100).  So the client is never
    created with a negative latency, as long as that default is not
    negative. *)
Theorem latency_request (a : args.t) :
  (forall l, args.latency a = Some l -> 0 <= l -> requested_latency a = l)
  /\ (forall l, args.latency a = Some l -> l < 0 ->
        requested_latency a = MS2TS 1000 44100)
  /\ (args.latency a = None -> requested_latency a = MS2TS 1000 44100)
  /\ (0 <= MS2TS 1000 44100 -> 0 <= ca_latency (client_args a)).
Proof.
  unfold client_args, requested_latency. cbn [ca_latency].
  destruct (args.latency a) as [l|]; repeat split; try discriminate.
  - intros l' [= <-] Hl. apply Z.leb_le in Hl. now rewrite Hl.
  - intros l' [= <-] Hl. apply Z.leb_gt in Hl. now rewrite Hl.
  - intros Hd. destruct (Z.leb_spec 0 l); assumption.
  - easy.
Qed.

(** X17: a file that cannot be read stops the script before it connects.
    When the start file is missing or does not hold an integer, or the
    input file is missing, the script ends with that exception (status 1)
    for any fuel; the client has been created by then, and it is neither
    connected nor destroyed. *)
Theorem startup_file_errors fuel sched (a : args.t) (e : Env) :
  given (args.ntp_file a) = None ->
  let said :=
    [ev_set_log_level (args.debug a); ev_call (c_create (client_args a))] in
  (forall name, given (args.start_file a) = Some name ->
     files e name = None ->
     main (C := C) py_int fuel sched a e = Some (Raised OSError, logged said e))
  /\ (forall name content, given (args.start_file a) = Some name ->
        files e name = Some content ->
        py_int (string_of_list_byte content) = None ->
        main (C := C) py_int fuel sched a e
        = Some (Raised ValueError, logged said e))
  /\ (forall start0, fst (read_start py_int a e) = Return start0 ->
        files e (args.filename a) = None ->
        main (C := C) py_int fuel sched a e
        = Some (Raised OSError, logged said e))
  /\ exit_status (@Raised unit OSError) = 1
  /\ exit_status (@Raised unit ValueError) = 1.
Proof.
  intros Hn said.
  assert (Hmain : forall x,
    fst (prepare py_int a (logged [ev_set_log_level (args.debug a)] e))
    = Raised x ->
    snd (prepare py_int a (logged [ev_set_log_level (args.debug a)] e))
    = logged said e ->
    main (C := C) py_int fuel sched a e = Some (Raised x, logged said e)).
  { intros x H1 H2. unfold main, dump_ntp, bind. cbn [emit]. rewrite Hn.
    cbn [ret]. unfold open_session. fold (logged [ev_set_log_level (args.debug a)] e).
    destruct (prepare py_int a (logged [ev_set_log_level (args.debug a)] e))
      as [r e1]. cbn [fst snd] in *. subst r e1. reflexivity. }
  assert (Hlog : logged [ev_call (c_create (client_args a))]
                   (logged [ev_set_log_level (args.debug a)] e)
                 = logged said e).
  { unfold logged, said. cbn. now rewrite <- app_assoc. }
  assert (Hfiles : files (logged [ev_call (c_create (client_args a))]
                            (logged [ev_set_log_level (args.debug a)] e))
                   = files e) by reflexivity.
  assert (Hprep : forall r,
    read_start py_int a
      (logged [ev_call (c_create (client_args a))]
         (logged [ev_set_log_level (args.debug a)] e))
    = (r, logged said e) ->
    prepare py_int a (logged [ev_set_log_level (args.debug a)] e)
    = (match r with
       | Return start0 =>
           match files e (args.filename a) with
           | Some data => Return (start0, data)
           | None => Raised OSError
           end
       | SystemExit c => SystemExit c
       | Raised x => Raised x
       end, logged said e)).
  { intros r Hr. unfold prepare, bind. cbn [emit].
    fold (logged [ev_call (c_create (client_args a))]
            (logged [ev_set_log_level (args.debug a)] e)).
    rewrite Hr. destruct r as [start0 | c | x]; try reflexivity.
    unfold open_read. cbn [files logged].
    destruct (files e (args.filename a)); reflexivity. }
  assert (Hread : read_start py_int a
                    (logged [ev_call (c_create (client_args a))]
                       (logged [ev_set_log_level (args.debug a)] e))
                  = (fst (read_start py_int a e), logged said e)).
  { rewrite read_start_env, Hlog. f_equal.
    apply read_start_files. rewrite <- Hlog. exact Hfiles. }
  pose proof (Hprep _ Hread) as Hp. clear Hprep Hread.
  split; [|split; [|split; [|split]]]; try reflexivity.
  - intros name Hs Hf. apply Hmain; rewrite Hp;
      unfold read_start, open_read, bind; rewrite Hs, Hf; reflexivity.
  - intros name content Hs Hf Hi. apply Hmain; rewrite Hp;
      unfold read_start, open_read, bind, raise; rewrite Hs, Hf, Hi;
      reflexivity.
  - intros start0 Hs Hf. apply Hmain; rewrite Hp, Hs, Hf; reflexivity.
Qed.

(** X18: the NTP dump feeds the start file.  A run in NTP-dump mode
    whose file can be opened for writing leaves a file that a later run,
    given that file as its start file, reads back as the very clock value
    that was dumped, whatever start the later command line names besides;
    this needs int to read back what str prints. *)
Theorem dump_then_start_file fuel sched (a1 a2 : args.t) (e : Env) name :
  (forall n, py_int (str n) = Some n) ->
  given (args.ntp_file a1) = Some name ->
  writable e name = true ->
  given (args.start_file a2) = Some name ->
  exists e',
    main (C := C) py_int fuel sched a1 e = Some (SystemExit None, e')
    /\ read_start py_int a2 e' = (Return (clock e (reads e)), e').
Proof.
  intros Hint H1 Hw H2.
  unfold main, dump_ntp, bind. cbn [emit]. rewrite H1.
  unfold open_write. cbn [writable]. rewrite Hw.
  unfold get_ntp, write_file, py_exit. cbn.
  eexists. split; [reflexivity|].
  unfold read_start, open_read, bind, ret. rewrite H2. cbn.
  rewrite String.eqb_refl, string_of_list_byte_of_string, Hint.
  reflexivity.
Qed.

(** X19: the announced delay without an absolute start.  With a wait and
    no start, the line printed before start_at announces
    NTP2MS(MS2NTP(wait)) when MS2NTP(wait) is positive and 0 otherwise: the
    latency, subtracted from the schedule, does not show in it. *)
Theorem announced_delay wait latency (k : Conn C) :
  wait <> 0 ->
  let now := clock (env k) (reads (env k)) in
  let scheduled :=
    now + MS2NTP wait - TS2NTP latency (RaopClient.sample_rate (client k)) in
  trace (env (exec (delayed_start 0 wait latency) k))
  = trace (env k)
    ++ [ev_print (NowAudioStartsAt (SECNTP now) (SECNTP scheduled)
                    (if 0 <? MS2NTP wait then NTP2MS (MS2NTP wait) else 0));
        ev_call (c_start_at scheduled)].
Proof.
  intros Hw now scheduled. unfold exec.
  rewrite delayed_start_schedules by (right; exact Hw).
  cbn. fold now. fold scheduled. do 4 f_equal.
  replace (scheduled - now
           + TS2NTP latency (RaopClient.sample_rate (client k)))
    with (MS2NTP wait) by (unfold scheduled; lia).
  destruct (Z.ltb_spec now
              (scheduled + TS2NTP latency (RaopClient.sample_rate (client k)))),
    (Z.ltb_spec 0 (MS2NTP wait)); unfold scheduled in *; try reflexivity; lia.
Qed.

(** X20: a start in the past is not clamped.  With an absolute start whose
    time plus the wait is not after the clock reading, the script announces
    "in 0 ms" and still passes start + MS2NTP(wait) - latency, a time in the
    past, to start_at. *)
Theorem past_start_not_clamped start wait latency (k : Conn C) :
  start <> 0 ->
  start + MS2NTP wait <= clock (env k) (reads (env k)) ->
  let now := clock (env k) (reads (env k)) in
  let scheduled :=
    start + MS2NTP wait - TS2NTP latency (RaopClient.sample_rate (client k)) in
  trace (env (exec (delayed_start start wait latency) k))
  = trace (env k)
    ++ [ev_print (NowAudioStartsAt (SECNTP now) (SECNTP scheduled) 0);
        ev_call (c_start_at scheduled)]
  /\ client (exec (delayed_start start wait latency) k)
     = RaopClient.start_at scheduled (client k).
Proof.
  intros Hs Hpast now scheduled. unfold exec.
  rewrite delayed_start_schedules by (left; exact Hs).
  apply Z.eqb_neq in Hs. rewrite Hs. cbn. fold now. fold scheduled.
  split; [|reflexivity]. do 4 f_equal.
  destruct (Z.ltb_spec now
              (scheduled + TS2NTP latency (RaopClient.sample_rate (client k))));
    [unfold scheduled, now in *; lia | reflexivity].
Qed.

(** X21: nothing is scheduled without a start and a wait.  A run that
    connects with neither given calls only the constructor and connect on
    the client before the loop: no start_at; and streaming starts at the
    first clock reading. *)
Theorem no_schedule (a : args.t) (e : Env) data :
  fst (read_start py_int a e) = Return 0 ->
  args.wait a = 0 ->
  files e (args.filename a) = Some data ->
  fst (RaopClient.connect (args.port a) true
         (RaopClient.create (client_args a))) = true ->
  let c1 := snd (RaopClient.connect (args.port a) true
                   (RaopClient.create (client_args a))) in
  exists (s : State C),
    open_session py_int a e = (Return s, env (conn s))
    /\ the_client s = c1
    /\ the_trace s
       = trace e
         ++ [ev_call (c_create (client_args a));
             ev_call (c_connect (args.port a) true);
             ev_print (ConnectedTo (args.server_ip a) (args.port a)
                         (TS2MS (RaopClient.latency c1)
                            (RaopClient.sample_rate c1)))]
    /\ start s = clock e (reads e)
    /\ last_keepalive s = clock e (reads e)
    /\ the_reads s = S (reads e).
Proof.
  intros Hs Hw Hf Hc c1.
  unfold open_session. rewrite (prepare_ok py_int a e 0 data Hs Hf).
  unfold negotiate, bind.
  rewrite connect_or_exit_ok by exact Hc. cbn [get client].
  rewrite Hw, delayed_start_skips. unfold logged. run.
  eexists.
  split; [apply injective_projections; cbn [fst snd]; reflexivity|].
  cbn. rewrite <- !app_assoc. repeat split.
Qed.

(** X22: the normal end.  When streaming was begun and the loop is left,
    the script closes the input, disconnects and destroys the client, in
    that order, and ends with status 0; the loop was left because the
    client was no longer playing.  The loop is left in no other way, and
    while it runs the script does not end. *)
Theorem main_completes fuel sched (a : args.t) (e e1 : Env) (s : State C) :
  given (args.ntp_file a) = None ->
  open_session py_int a (logged [ev_set_log_level (args.debug a)] e)
  = (Return s, e1) ->
  (forall r,
     stream_loop fuel sched (args.interactive a) s = Some r ->
     main py_int fuel sched a e
     = Some (Return tt,
             logged [ev_close_infile; ev_call c_disconnect; ev_call c_destroy]
               (env (conn (snd r))))
     /\ exit_status (fst r) = 0
     /\ RaopClient.is_playing (the_client (snd r)) = false)
  /\ (stream_loop fuel sched (args.interactive a) s = None ->
      main py_int fuel sched a e = None).
Proof.
  intros Hn Ho.
  assert (Hmain : main py_int fuel sched a e
          = match stream_loop fuel sched (args.interactive a) s with
            | Some (Return _, s) =>
                let (r, k) := end_streaming (conn s) in Some (r, env k)
            | Some (SystemExit c, s) => Some (SystemExit c, env (conn s))
            | Some (Raised x, s) => Some (Raised x, env (conn s))
            | None => None
            end).
  { unfold main, dump_ntp, bind. cbn [emit]. rewrite Hn. cbn [ret].
    fold (logged [ev_set_log_level (args.debug a)] e). now rewrite Ho. }
  split.
  - intros r Hr.
    destruct (stream_loop_leaves _ _ _ _ _ Hr) as (n & _ & [Hoff _] & ->).
    rewrite Hmain, Hr. cbn [fst snd exit_status].
    split; [|split; [reflexivity | exact Hoff]].
    unfold end_streaming, logged. run. now rewrite <- !app_assoc.
  - intros Hr. now rewrite Hmain, Hr.
Qed.

End StartToo.

Section MoreRuns.

Import Sample.

Lemma unknown_key_ignored_witness :
  "x"%string <> "s"%string /\ "x"%string <> "q"%string
  /\ "x"%string <> "p"%string /\ "x"%string <> "r"%string
  /\ handle_key_event "x" (playing0 []) = (Return tt, playing0 []).
Proof.
  assert (H1 : "x"%string <> "s"%string) by discriminate.
  assert (H2 : "x"%string <> "q"%string) by discriminate.
  assert (H3 : "x"%string <> "p"%string) by discriminate.
  assert (H4 : "x"%string <> "r"%string) by discriminate.
  split; [exact H1|]. split; [exact H2|]. split; [exact H3|].
  split; [exact H4|].
  exact (@unknown_key_ignored macros Mock mock_ops "x" (playing0 []) H1 H2 H3 H4).
Defined.

Lemma listen_until_stop_witness :
  fst (listen ["p"; "s"; "r"]%string (playing0 [])) = false
  /\ status (snd (listen ["p"; "s"; "r"]%string (playing0 []))) = STOPPED.
Proof.
  destruct (proj2 (@listen_until_stop macros Mock mock_ops)
              ["p"%string] "s"%string ["r"%string] (playing0 [])
              eq_refl eq_refl) as [Hrun Hst].
  split; [|exact Hst]. change (["p"; "s"; "r"]%string)
    with (["p"%string] ++ "s"%string :: ["r"%string]).
  now rewrite Hrun.
Defined.

Lemma keys_need_interactive_witness :
  args.interactive cmdline_plain = false
  /\ main (C := Mock) parse_int 3 [["s"%string]] cmdline_plain env_song
     = main parse_int 3 [] cmdline_plain env_song.
Proof.
  split; [reflexivity|].
  apply (proj2 (@keys_need_interactive macros Mock mock_ops parse_int)).
  reflexivity.
Defined.

Lemma pause_then_restart_witness :
  status (playing0 []) = PLAYING
  /\ status (snd (listen ["p"; "r"]%string (playing0 []))) = PLAYING
  /\ fst (listen ["p"; "r"]%string (playing0 [])) = true.
Proof.
  split; [reflexivity|].
  destruct (@pause_then_restart macros Mock mock_ops (playing0 []) eq_refl)
    as (Halive & Hst & _).
  split; assumption.
Defined.

Lemma whole_frames_witness :
  0 < MAX_SAMPLES_PER_CHUNK
  /\ (4 | Z.of_nat (List.length (infile (playing0 (silence 500)))))
  /\ 4 * (frames (snd (rounds 3 [] false (playing0 (silence 500))))
          - frames (playing0 (silence 500)))
     = bytes_sent (the_trace (snd (rounds 3 [] false (playing0 (silence 500)))))
       - bytes_sent (the_trace (playing0 (silence 500))).
Proof.
  assert (Hmax : 0 < MAX_SAMPLES_PER_CHUNK) by reflexivity.
  assert (Hdiv : (4 | Z.of_nat (List.length (infile (playing0 (silence 500))))))
    by (exists 500; reflexivity).
  split; [exact Hmax|]. split; [exact Hdiv|].
  apply (@whole_frames macros Mock mock_ops 3 [] false _ Hmax Hdiv).
Defined.

Lemma short_chunk_is_last_witness :
  0 < MAX_SAMPLES_PER_CHUNK
  /\ sends odd_input = true
  /\ Z.of_nat (List.length (next_chunk odd_input)) < MAX_SAMPLES_PER_CHUNK * 4
  /\ infile (exec stream_data odd_input) = [].
Proof.
  assert (Hmax : 0 < MAX_SAMPLES_PER_CHUNK) by reflexivity.
  assert (Hshort : Z.of_nat (List.length (next_chunk odd_input))
                   < MAX_SAMPLES_PER_CHUNK * 4) by reflexivity.
  split; [exact Hmax|]. split; [reflexivity|]. split; [exact Hshort|].
  apply (@short_chunk_is_last macros Mock mock_ops odd_input Hmax eq_refl Hshort).
Defined.

(** Six bytes are a frame and a half: they go out in one chunk and count
    as one frame. *)
Example odd_tail :
  frames (exec stream_data odd_input) = 1
  /\ bytes_sent (the_trace (exec stream_data odd_input)) = 6.
Proof. vm_compute. split; reflexivity. Qed.

Lemma exhausted_stays_witness :
  infile (playing0 []) = []
  /\ frames (snd (rounds 4 keys_pause_stop true (playing0 []))) = 0.
Proof.
  split; [reflexivity|].
  destruct (@exhausted_stays macros Mock mock_ops 4 keys_pause_stop true
              (playing0 []) eq_refl) as (_ & _ & H). exact H.
Defined.

Lemma halted_stays_witness :
  (status (with_status PAUSED (playing0 (silence 100))) = PAUSED
   \/ status (with_status PAUSED (playing0 (silence 100))) = STOPPED)
  /\ sent_chunks
       (the_trace (snd (rounds 5 [] false
                          (with_status PAUSED (playing0 (silence 100))))))
     = [].
Proof.
  assert (Hs : status (with_status PAUSED (playing0 (silence 100))) = PAUSED
               \/ status (with_status PAUSED (playing0 (silence 100))) = STOPPED)
    by (left; reflexivity).
  split; [exact Hs|].
  destruct (@halted_stays macros Mock mock_ops 5 []
              (with_status PAUSED (playing0 (silence 100))) Hs)
    as (_ & H & _). exact H.
Defined.

Lemma latency_request_witness :
  args.latency cmdline_plain = Some 0
  /\ requested_latency cmdline_plain = 0.
Proof.
  split; [reflexivity|].
  apply (proj1 (@latency_request macros cmdline_plain) 0 eq_refl).
  discriminate.
Defined.

Lemma startup_file_errors_witness :
  given (args.ntp_file cmdline_missing) = None
  /\ fst (read_start parse_int cmdline_missing env_song) = Return 0
  /\ files env_song (args.filename cmdline_missing) = None
  /\ option_map fst
       (main (C := Mock) parse_int 0 [] cmdline_missing env_song)
     = Some (Raised OSError).
Proof.
  split; [reflexivity|]. split; [reflexivity|]. split; [reflexivity|].
  destruct (@startup_file_errors macros Mock mock_ops parse_int 0%nat []
              cmdline_missing env_song eq_refl) as (_ & _ & H & _).
  now rewrite (H 0 eq_refl eq_refl).
Defined.

Lemma dump_then_start_file_witness :
  (forall n, parse_int (str n) = Some n)
  /\ given (args.ntp_file cmdline_ntp) = Some "ntp.txt"%string
  /\ writable env0 "ntp.txt" = true
  /\ given (args.start_file cmdline_start_file) = Some "ntp.txt"%string
  /\ exists e',
       main (C := Mock) parse_int 0 [] cmdline_ntp env0
       = Some (SystemExit None, e')
       /\ fst (read_start parse_int cmdline_start_file e') = Return (2 ^ 40).
Proof.
  assert (Hint : forall n, parse_int (str n) = Some n) by exact str_parses.
  split; [exact Hint|]. split; [reflexivity|]. split; [reflexivity|].
  split; [reflexivity|].
  destruct (@dump_then_start_file macros Mock mock_ops parse_int 0%nat []
              cmdline_ntp cmdline_start_file env0 "ntp.txt"%string
              Hint eq_refl eq_refl eq_refl) as (e' & Hrun & Hread).
  exists e'. split; [exact Hrun|]. now rewrite Hread.
Defined.

Lemma announced_delay_witness :
  250 <> 0
  /\ In (ev_print (NowAudioStartsAt (SECNTP (2 ^ 40))
                     (SECNTP (2 ^ 40 + 2 ^ 30 - 2 ^ 32)) 250))
       (trace (env (exec (delayed_start 0 250 44100) conn0))).
Proof.
  assert (Hw : 250 <> 0) by discriminate.
  split; [exact Hw|].
  rewrite (@announced_delay macros Mock mock_ops 250 44100 conn0 Hw).
  left. reflexivity.
Defined.

Lemma past_start_not_clamped_witness :
  5 <> 0
  /\ 5 + MS2NTP 0 <= clock (env conn0) (reads (env conn0))
  /\ In (ev_call (c_start_at (5 - 2 ^ 32)))
       (trace (env (exec (delayed_start 5 0 44100) conn0))).
Proof.
  assert (Hs : 5 <> 0) by discriminate.
  assert (Hp : 5 + MS2NTP 0 <= clock (env conn0) (reads (env conn0)))
    by discriminate.
  split; [exact Hs|]. split; [exact Hp|].
  destruct (@past_start_not_clamped macros Mock mock_ops 5 0 44100 conn0 Hs Hp)
    as [Htr _].
  rewrite Htr. right. left. reflexivity.
Defined.

Lemma no_schedule_witness :
  fst (read_start parse_int cmdline_plain env_song) = Return 0
  /\ args.wait cmdline_plain = 0
  /\ exists s : State Mock,
       fst (open_session parse_int cmdline_plain env_song) = Return s
       /\ start s = 2 ^ 40.
Proof.
  split; [reflexivity|]. split; [reflexivity|].
  destruct (@no_schedule macros Mock mock_ops parse_int cmdline_plain env_song
              (repeat Byte.x00 12) eq_refl eq_refl eq_refl eq_refl)
    as (s & Hrun & _ & _ & Hstart & _).
  exists s. split; [now rewrite Hrun | exact Hstart].
Defined.

Lemma main_completes_witness :
  given (args.ntp_file cmdline_keys) = None
  /\ exists e',
       main (C := Mock) parse_int 5 [[]; ["s"%string]] cmdline_keys env_song
       = Some (Return tt, e').
Proof.
  split; [reflexivity|].
  pose (r := open_session (C := Mock) parse_int cmdline_keys
               (logged [ev_set_log_level (args.debug cmdline_keys)] env_song)).
  pose (s := match fst r with Return s => s | _ => playing0 [] end).
  assert (Ho : r = (Return s, snd r)) by reflexivity.
  assert (Hl : leaves_after 1 [[]; ["s"%string]] true s).
  { split; [vm_compute; reflexivity|].
    intros [|m] Hm; [vm_compute; reflexivity | lia]. }
  assert (Hr : stream_loop 5 [[]; ["s"%string]]
                 (args.interactive cmdline_keys) s
               = Some (Return tt, snd (rounds 2 [[]; ["s"%string]] true s)))
    by (apply leaves_stream_loop; [lia | exact Hl]).
  destruct (proj1 (@main_completes macros Mock mock_ops parse_int 5%nat
                     [[]; ["s"%string]] cmdline_keys env_song (snd r) s
                     eq_refl Ho) _ Hr) as (Hm & _).
  eexists. exact Hm.
Defined.

End MoreRuns.
